(** * The ETL pipeline of [etl.py], embedded in Rocq

    The pipeline reads user identifiers from a CSV file, fetches one record
    per identifier from a remote service, appends one generated news item to
    every record, writes a report and pushes each record back.

    The embedding follows the type annotations of the source: [str] is a
    sequence of Unicode code points, [Any] is a JSON-like Python value,
    [Dict[str, Any]] an insertion-ordered association list, [Optional] an
    [option].  Code that raises returns [Raise]; code that talks to the
    outside (HTTP, the generation service, files, the console) threads an
    explicit state. *)

From Stdlib Require Import String Ascii.
From Stdlib Require Import ZArith NArith List Bool Lia DecimalString.
From Stdlib Require Import SpecFloat.
Import ListNotations.

Set Implicit Arguments.
Set Warnings "-register-all".

(* ================================================================== *)
(** * Python strings *)
(* ================================================================== *)

(** A Python [str]: a sequence of code points. *)
Definition pychar := N.
Definition pystr := list pychar.

(** Decoding of a UTF-8 byte sequence, so that the literals of the source
    can be written as they are in [etl.py]. *)
Fixpoint utf8_decode (bs : list N) (cur : N) (need : nat) : pystr :=
  match bs with
  | [] => []
  | b :: bs' =>
      match need with
      | O =>
          if (b <? 128)%N then b :: utf8_decode bs' 0%N 0
          else if (b <? 224)%N then utf8_decode bs' (b mod 32)%N 1
          else if (b <? 240)%N then utf8_decode bs' (b mod 16)%N 2
          else utf8_decode bs' (b mod 8)%N 3
      | S O => (cur * 64 + b mod 64)%N :: utf8_decode bs' 0%N 0
      | S k => utf8_decode bs' (cur * 64 + b mod 64)%N k
      end
  end.

Definition py (s : string) : pystr :=
  utf8_decode (map N_of_ascii (list_ascii_of_string s)) 0%N 0.

Definition pystr_eq_dec : forall s t : pystr, {s = t} + {s <> t} :=
  list_eq_dec N.eq_dec.

Definition pystr_eqb (s t : pystr) : bool :=
  if pystr_eq_dec s t then true else false.

(** [str.isspace] of one character, which is also what [\s] matches in a
    [str] pattern: CPython's [Py_UNICODE_ISSPACE]. *)
Definition is_space (c : pychar) : bool :=
  ((9 <=? c) && (c <=? 13) || (28 <=? c) && (c <=? 32)
   || (c =? 133) || (c =? 160) || (c =? 5760)
   || (8192 <=? c) && (c <=? 8202)
   || (c =? 8232) || (c =? 8233) || (c =? 8239) || (c =? 8287)
   || (c =? 12288))%N.

Definition SPACE : pychar := 32%N.
Definition STAR : pychar := 42%N.
Definition UNDERSCORE : pychar := 95%N.
Definition BACKTICK : pychar := 96%N.

Fixpoint lstrip (s : pystr) : pystr :=
  match s with
  | [] => []
  | c :: s' => if is_space c then lstrip s' else s
  end.

Fixpoint rstrip (s : pystr) : pystr :=
  match s with
  | [] => []
  | c :: s' =>
      match rstrip s' with
      | [] => if is_space c then [] else [c]
      | r => c :: r
      end
  end.

(** [s.strip()] *)
Definition strip (s : pystr) : pystr := rstrip (lstrip s).

Fixpoint starts_with (old s : pystr) : bool :=
  match old, s with
  | [], _ => true
  | _ :: _, [] => false
  | a :: old', c :: s' => (a =? c)%N && starts_with old' s'
  end.

(** Left-to-right scan of [s.replace(old, new)]: [skip] counts the
    characters of a match still to be dropped. *)
Fixpoint replace_scan (old new : pystr) (skip : nat) (s : pystr) : pystr :=
  match s with
  | [] => []
  | c :: s' =>
      match skip with
      | S k => replace_scan old new k s'
      | O =>
          if starts_with old s
          then new ++ replace_scan old new (length old - 1) s'
          else c :: replace_scan old new 0 s'
      end
  end.

(** [s.replace(old, new)]: every non-overlapping occurrence, leftmost
    first.  With an empty [old] Python puts [new] around every character. *)
Definition replace (old new s : pystr) : pystr :=
  match old with
  | [] => new ++ flat_map (fun c => c :: new) s
  | _ :: _ => replace_scan old new 0 s
  end.

(** [re.sub(r"\s+", " ", s)]: [in_run] says that the previous character
    belonged to the whitespace run already replaced. *)
Fixpoint sub_ws (in_run : bool) (s : pystr) : pystr :=
  match s with
  | [] => []
  | c :: s' =>
      if is_space c
      then (if in_run then sub_ws true s' else SPACE :: sub_ws true s')
      else c :: sub_ws false s'
  end.

Definition re_sub_ws (s : pystr) : pystr := sub_ws false s.

(** [clean_text] (etl.py, 103-115), on a [str] argument, for which
    [text or ""] is [text]. *)
Definition clean_text (text : pystr) : pystr :=
  let text := strip text in
  let text := replace (py "**") [] text in
  let text := replace (py "__") [] text in
  let text := replace (py "`") [] text in
  let text := replace (py "*") [] text in
  strip (re_sub_ws text).

(** A text in which whitespace runs are already single spaces ([b]: the
    text follows a whitespace character). *)
Definition collapsed (b : bool) (s : pystr) : Prop := sub_ws b s = s.

(** The shape of every text that [clean_text] returns. *)
Definition clean (t : pystr) : Prop :=
  ~ In STAR t /\ ~ In BACKTICK t /\ lstrip t = t /\ rstrip t = t /\ collapsed false t.

(** [old in s] for a non-empty [old]. *)
Fixpoint occurs (old s : pystr) : bool :=
  match s with
  | [] => false
  | _ :: s' => starts_with old s || occurs old s'
  end.

(* ================================================================== *)
(** * Python values, exceptions *)
(* ================================================================== *)

(** A value of type [Any], as [resp.json()] and pandas produce it. *)
Inductive pyval : Type :=
| PNone
| PBool (b : bool)
| PInt (z : Z)
| PFloat (f : spec_float)
| PStr (s : pystr)
| PList (l : list pyval)
| PDict (d : list (pystr * pyval)).

(** [Dict[str, Any]], in insertion order. *)
Definition pydict := list (pystr * pyval).

(** [bool(v)] *)
Definition truthy (v : pyval) : bool :=
  match v with
  | PNone => false
  | PBool b => b
  | PInt z => negb (z =? 0)%Z
  | PFloat (S754_zero _) => false
  | PFloat _ => true
  | PStr [] => false
  | PStr _ => true
  | PList [] => false
  | PList _ => true
  | PDict [] => false
  | PDict _ => true
  end.

(** [v or d] *)
Definition py_or (v d : pyval) : pyval := if truthy v then v else d.

Fixpoint dict_lookup (d : pydict) (k : pystr) : option pyval :=
  match d with
  | [] => None
  | (k', v) :: d' => if pystr_eq_dec k' k then Some v else dict_lookup d' k
  end.

(** [d.get(k, default)] *)
Definition dict_get (d : pydict) (k : pystr) (default : pyval) : pyval :=
  match dict_lookup d k with
  | Some v => v
  | None => default
  end.

(** [d[k] = v] *)
Fixpoint dict_set (d : pydict) (k : pystr) (v : pyval) : pydict :=
  match d with
  | [] => [(k, v)]
  | (k', v') :: d' =>
      if pystr_eq_dec k' k then (k', v) :: d' else (k', v') :: dict_set d' k v
  end.

(** [d.setdefault(k, v)], for its effect on [d]. *)
Definition dict_setdefault (d : pydict) (k : pystr) (v : pyval) : pydict :=
  match dict_lookup d k with
  | Some _ => d
  | None => dict_set d k v
  end.

Inductive exc_class :=
| ValueError | RuntimeError | AttributeError | TypeError | KeyError
| OverflowError | IndexError | OSError
| RequestException   (* requests.exceptions: ConnectionError, Timeout, ... *)
| JSONDecodeError
| OtherException.

(** A raised exception.  Every one is a subclass of [Exception]: signals
    such as [KeyboardInterrupt] are no outcome of a call.  [APIError] is
    [google.genai.errors.APIError] with its [code] and [message]
    attributes. *)
Inductive pyexc :=
| Exc (c : exc_class) (msg : pystr)
| APIError (code message : pyval).

Inductive result (A : Type) : Type :=
| Ok (a : A)
| Raise (e : pyexc).
Arguments Ok {A} a.
Arguments Raise {A} e.

Definition rbind {A B} (r : result A) (f : A -> result B) : result B :=
  match r with
  | Ok a => f a
  | Raise e => Raise e
  end.

Fixpoint rmap {A B} (f : A -> result B) (l : list A) : result (list B) :=
  match l with
  | [] => Ok []
  | a :: l' =>
      rbind (f a) (fun b => rbind (rmap f l') (fun bs => Ok (b :: bs)))
  end.

(** [str(z)] of an [int]. *)
Definition str_of_int (z : Z) : pystr := py (NilZero.string_of_int (Z.to_int z)).

(** What the model takes from the Python runtime and its libraries as
    given. *)
Class Runtime : Type := {
  (** [int(s)] of a [str]; [None] when it raises [ValueError]. *)
  int_of_str : pystr -> option Z;
  (** [str(v)] of a float, a list or a dict. *)
  str_of_compound : pyval -> pystr;
  (** numpy's conversion of one non-missing cell in [Series.astype(int)]. *)
  astype_int : pyval -> result Z;
  (** [print_users_table] (etl.py, 183-214) renders the batch on the
      console with pandas and float formatting: the text printed, or the
      exception it raises. *)
  print_users_table : list pydict -> Z -> result pystr;
}.

Section Values.
Context {RT : Runtime}.

(** [str(v)], as an f-string formats [v]. *)
Definition py_str (v : pyval) : pystr :=
  match v with
  | PNone => py "None"
  | PBool true => py "True"
  | PBool false => py "False"
  | PInt z => str_of_int z
  | PStr s => s
  | _ => str_of_compound v
  end.

(** [int(v)] *)
Definition py_int (v : pyval) : result Z :=
  match v with
  | PInt z => Ok z
  | PBool b => Ok (if b then 1 else 0)%Z
  | PFloat (S754_zero _) => Ok 0%Z
  | PFloat (S754_finite s m e) =>
      let mag := Z.shiftl (Z.pos m) e in
      Ok (if s then - mag else mag)%Z
  | PFloat (S754_infinity _) =>
      Raise (Exc OverflowError (py "cannot convert float infinity to integer"))
  | PFloat S754_nan =>
      Raise (Exc ValueError (py "cannot convert float NaN to integer"))
  | PStr s =>
      match int_of_str s with
      | Some z => Ok z
      | None => Raise (Exc ValueError (py "invalid literal for int()"))
      end
  | _ => Raise (Exc TypeError (py "int() argument must be a string or a number"))
  end.

(** [v.get(k, default)] on a value of type [Any]: only a dict has [get]. *)
Definition any_get (v : pyval) (k : pystr) (default : pyval) : result pyval :=
  match v with
  | PDict d => Ok (dict_get d k default)
  | _ => Raise (Exc AttributeError (py "object has no attribute 'get'"))
  end.

(** [v[-1]] on a truthy value of type [Any]. *)
Definition any_last (v : pyval) : result pyval :=
  match v with
  | PList (x :: l) => Ok (last l x)
  | PStr (c :: s) => Ok (PStr [last s c])
  | PList [] | PStr [] => Raise (Exc IndexError (py "index out of range"))
  | PDict _ => Raise (Exc KeyError (py "-1"))
  | _ => Raise (Exc TypeError (py "object is not subscriptable"))
  end.

(** [len(v)] *)
Definition any_len (v : pyval) : result nat :=
  match v with
  | PList l => Ok (length l)
  | PStr s => Ok (length s)
  | PDict d => Ok (length d)
  | _ => Raise (Exc TypeError (py "object has no len()"))
  end.

(** The items a [for] or a generator draws from a value of type [Any]. *)
Definition any_iter (v : pyval) : result (list pyval) :=
  match v with
  | PList l => Ok l
  | PStr s => Ok (map (fun c => PStr [c]) s)
  | PDict d => Ok (map (fun kv => PStr (fst kv)) d)
  | _ => Raise (Exc TypeError (py "object is not iterable"))
  end.

(** [clean_text(v)] when the argument is of type [Any]: [(text or "")] is
    the empty string for a falsy value, and only a [str] has [strip]. *)
Definition clean_text_any (v : pyval) : result pystr :=
  match v with
  | PStr s => Ok (clean_text s)
  | _ =>
      if truthy v
      then Raise (Exc AttributeError (py "object has no attribute 'strip'"))
      else Ok (clean_text [])
  end.

End Values.

(* ================================================================== *)
(** * The outside world *)
(* ================================================================== *)

(** A [requests.Response] as [get_user] is annotated to use it: [json] is
    what [resp.json()] returns or raises, taken as the
    [Optional[Dict[str, Any]]] that [get_user] declares, a mapping or
    [None].  The annotation is not checked at run time: the lookup on any
    decoded body is in [Untyped] below. *)
Record response := {
  status_code : Z;
  text : pystr;
  json : result (option pydict);
}.

(** A pandas [DataFrame] as read from a CSV file: its columns in order,
    each with its cells in row order; a missing cell is [NaN] or [None]. *)
Definition dataframe := list (pystr * list pyval).

(** One row of the report (etl.py, 311-320). *)
Record report_row := {
  row_user_id : pyval;
  row_nome : pyval;
  row_agencia : pyval;
  row_conta : pyval;
  row_balanco : pyval;
  row_limite : pyval;
  qtd_news_total : nat;
  ultima_news : pystr;
}.

(** The remote services and the file system.  Every call returns or raises,
    and may change the world. *)
Class World (W : Type) : Type := {
  (** [requests.get(url, timeout=t)] *)
  requests_get : pystr -> Z -> W -> result response * W;
  (** [requests.put(url, json=user, timeout=t)] *)
  requests_put : pystr -> pydict -> Z -> W -> result response * W;
  (** [client.models.generate_content(model=m, contents=prompt)]; the value
      returned is [getattr(response, "text", "")], [None] included, and an
      exception raised while reading it counts as raised by the call. *)
  generate_content : pystr -> pystr -> W -> result (option pystr) * W;
  (** [pd.read_csv(path)] *)
  read_csv : pystr -> W -> result dataframe * W;
  (** [pd.DataFrame(rows).to_csv(path, index=False, encoding="utf-8-sig")] *)
  to_csv : pystr -> list report_row -> W -> result unit * W;
}.

Inductive level := INFO | OK | WARN | ERROR | DONE.

(** What the program prints. *)
Inductive console_line :=
| Log (l : level) (msg : pystr)
| Separator
| Table (text : pystr).

(** [Settings] (etl.py, 28-38) *)
Record Settings := {
  api_url : pystr;
  csv_path : pystr;
  gemini_api_key : option pystr;
  gemini_model : pystr;
  icon_url : pystr;
  timeout_sec : Z;
  report_path : pystr;
  wrap_news_width : Z;
}.

(** The state a run threads: the world and the console output so far. *)
Record state (W : Type) := {
  world : W;
  console : list console_line;
}.

(** The state after a call left the world [w]. *)
Definition with_world {W} (s : state W) (w : W) : state W :=
  {| world := w; console := console s |}.

(** The state after the line [l] was printed. *)
Definition logged {W} (s : state W) (l : console_line) : state W :=
  {| world := world s; console := console s ++ [l] |}.

(** A computation that returns or raises and changes the state. *)
Definition Run (W A : Type) : Type := state W -> result A * state W.

Section Monad.
Context {W : Type}.

Definition ret {A} (a : A) : Run W A := fun s => (Ok a, s).

Definition raise {A} (e : pyexc) : Run W A := fun s => (Raise e, s).

Definition bind {A B} (m : Run W A) (f : A -> Run W B) : Run W B :=
  fun s =>
    match m s with
    | (Ok a, s') => f a s'
    | (Raise e, s') => (Raise e, s')
    end.

(** A pure computation that may raise. *)
Definition lift {A} (r : result A) : Run W A := fun s => (r, s).

(** A call to the world. *)
Definition call {A} (op : W -> result A * W) : Run W A :=
  fun s =>
    let '(r, w) := op (world s) in
    (r, with_world s w).

Definition print (l : console_line) : Run W unit :=
  fun s => (Ok tt, logged s l).

(** [try: body except Exception as e: handler] *)
Definition try_except {A} (body : Run W A) (handler : pyexc -> Run W A) : Run W A :=
  fun s =>
    match body s with
    | (Ok a, s') => (Ok a, s')
    | (Raise e, s') => handler e s'
    end.

End Monad.

Notation "x <- m ;; k" := (bind m (fun x => k))
  (at level 61, m at next level, right associativity).
Notation "m ;;; k" := (bind m (fun _ => k))
  (at level 61, right associativity).

(* ================================================================== *)
(** * The pipeline *)
(* ================================================================== *)

Section Pipeline.
Context {RT : Runtime} {W : Type} {WD : World W}.

Definition info (msg : pystr) : Run W unit := print (Log INFO msg).
Definition ok (msg : pystr) : Run W unit := print (Log OK msg).
Definition warn (msg : pystr) : Run W unit := print (Log WARN msg).
Definition error (msg : pystr) : Run W unit := print (Log ERROR msg).
Definition done (msg : pystr) : Run W unit := print (Log DONE msg).
Definition separator : Run W unit := print Separator.

(** ** Extract: CSV -> identifiers *)

(** [pd.isna] of one cell. *)
Definition isna (v : pyval) : bool :=
  match v with
  | PNone => true
  | PFloat S754_nan => true
  | _ => false
  end.

(** [Series.dropna()] *)
Definition dropna (cells : list pyval) : list pyval :=
  filter (fun v => negb (isna v)) cells.

(** [c in df.columns] *)
Definition has_column (df : dataframe) (c : pystr) : bool :=
  existsb (pystr_eqb c) (map fst df).

(** [df[col]] for a column that exists. *)
Fixpoint column (df : dataframe) (col : pystr) : list pyval :=
  match df with
  | [] => []
  | (c, cells) :: df' => if pystr_eq_dec c col then cells else column df' col
  end.

Definition col_candidates : list pystr := [py "user_id"; py "UserID"].

(** [next((c for c in col_candidates if c in df.columns), None)] *)
Definition id_column (df : dataframe) : option pystr :=
  find (has_column df) col_candidates.

(** [read_user_ids] (etl.py, 144-157) *)
Definition read_user_ids (csv_path : pystr) : Run W (list Z) :=
  df <- call (read_csv csv_path) ;;
  match id_column df with
  | None =>
      raise (Exc ValueError
        (py "CSV precisa ter coluna 'user_id' ou 'UserID'. Colunas encontradas: "
         ++ py_str (PList (map (fun c => PStr (fst c)) df))))
  | Some col =>
      ids <- lift (rmap astype_int (dropna (column df col))) ;;
      match ids with
      | [] => raise (Exc ValueError (py "Nenhum ID encontrado no CSV."))
      | _ :: _ => ret ids
      end
  end.

(** ** Extract: API -> users *)

Definition user_url (api : pystr) (user_id : pyval) : pystr :=
  api ++ py "/usuario/" ++ py_str user_id.

(** [get_user] (etl.py, 164-176) *)
Definition get_user (api : pystr) (user_id : Z) (timeout : Z)
  : Run W (option pydict) :=
  let url := user_url api (PInt user_id) in
  resp <- call (requests_get url timeout) ;;
  if (status_code resp =? 200)%Z then
    lift (json resp)
  else if (status_code resp =? 404)%Z then
    warn (py "Usuário " ++ str_of_int user_id
          ++ py " não encontrado na API (404). Ignorando.") ;;;
    ret None
  else
    error (py "GET " ++ url ++ py " -> " ++ str_of_int (status_code resp)
           ++ py " | " ++ firstn 200 (text resp)) ;;;
    ret None.

(** ** Transform: one generated news item per user *)

(** [max(zs)] of a non-empty sequence. *)
Definition max_of (z : Z) (zs : list Z) : Z := fold_left Z.max zs z.

(** [next_news_id] (etl.py, 221-225) *)
Definition next_news_id (user : pydict) : result Z :=
  let news_list := py_or (dict_get user (py "news") (PList [])) (PList []) in
  if negb (truthy news_list) then Ok 1%Z
  else
    rbind (any_iter news_list) (fun items =>
    rbind (rmap (fun n => rbind (any_get n (py "id") (PInt 0)) py_int) items)
      (fun ids =>
         match ids with
         | [] => Raise (Exc ValueError (py "max() arg is an empty sequence"))
         | z :: zs => Ok (max_of z zs + 1)%Z
         end)).

(** The fallback message for a display name. *)
Definition fallback_news (nome : pyval) : pystr :=
  py_str nome ++ py ", investir com consistência fortalece seu futuro financeiro.".

Definition news_prompt (nome : pyval) : pystr :=
  py "Você é um especialista em marketing bancário." ++ [10%N]
  ++ py "Crie uma mensagem para " ++ py_str nome
  ++ py " sobre a importância dos investimentos "
  ++ py "(máximo de 100 caracteres).".

(** [generate_ai_news_gemini] (etl.py, 228-251) *)
Definition generate_ai_news_gemini (model : pystr) (user : pydict) : Run W pystr :=
  let nome := dict_get user (py "nome") (PStr (py "Cliente")) in
  let prompt := news_prompt nome in
  try_except
    (response <- call (generate_content model prompt) ;;
     let text := clean_text (match response with Some t => t | None => [] end) in
     let text := match text with [] => fallback_news nome | _ :: _ => text end in
     ret (firstn 100 text))
    (fun e =>
       match e with
       | APIError code message =>
           error (py "Gemini APIError " ++ py_str code ++ py ": " ++ py_str message) ;;;
           ret (firstn 100 (clean_text (fallback_news nome)))
       | Exc _ msg =>
           error (py "Gemini erro inesperado: " ++ msg) ;;;
           ret (firstn 100 (clean_text (fallback_news nome)))
       end).

(** The content item appended to a user (etl.py, 266-270). *)
Definition news_item (id : Z) (icon msg : pystr) : pyval :=
  PDict [(py "id", PInt id); (py "icone", PStr icon); (py "descricao", PStr msg)].

(** The body of the loop of [transform_add_news_gemini] (etl.py, 261-273).
    The source updates the dict [u] in place; the model returns the
    updated dict.  The dicts of a batch are distinct objects, one per
    [resp.json()], so that no update is seen through another record. *)
Definition add_news (settings : Settings) (u : pydict) : Run W pydict :=
  msg <- generate_ai_news_gemini (gemini_model settings) u ;;
  let len := length msg in
  let u := dict_setdefault u (py "news") (PList []) in
  match dict_lookup u (py "news") with
  | Some (PList news) =>
      id <- lift (next_news_id u) ;;
      let u := dict_set u (py "news")
                 (PList (news ++ [news_item id (icon_url settings) msg])) in
      ok (py "News (Gemini) gerada para " ++ py_str (dict_get u (py "nome") PNone)
          ++ py " -> " ++ msg ++ py " (" ++ str_of_int (Z.of_nat len)
          ++ py " caracteres)") ;;;
      ret u
  | Some _ => raise (Exc AttributeError (py "object has no attribute 'append'"))
  | None => raise (Exc KeyError (py "'news'"))
  end.

(** [for x in xs: ...], collecting what each turn leaves. *)
Fixpoint for_each {A B} (f : A -> Run W B) (xs : list A) : Run W (list B) :=
  match xs with
  | [] => ret []
  | x :: xs' =>
      y <- f x ;;
      ys <- for_each f xs' ;;
      ret (y :: ys)
  end.

(** [transform_add_news_gemini] (etl.py, 254-280).  Creating and closing
    the client makes no call to the service. *)
Definition transform_add_news_gemini (settings : Settings) (users : list pydict)
  : Run W (list pydict) :=
  match gemini_api_key settings with
  | None | Some [] =>
      raise (Exc ValueError
        (py "GEMINI_API_KEY não encontrada. Configure no .env ou variável de ambiente."))
  | Some (_ :: _) => for_each (add_news settings) users
  end.

(** ** Load: PUT -> API *)

(** [update_user] (etl.py, 287-296) *)
Definition update_user (api : pystr) (user : pydict) (timeout : Z) : Run W bool :=
  let user_id := dict_get user (py "id") PNone in
  let url := user_url api user_id in
  resp <- call (requests_put url user timeout) ;;
  if (status_code resp =? 200)%Z then ret true
  else
    error (py "PUT " ++ url ++ py " -> " ++ str_of_int (status_code resp)
           ++ py " | " ++ firstn 200 (text resp)) ;;;
    ret false.

(** ** Report *)

(** One turn of the loop of [save_report_csv] (etl.py, 305-321). *)
Definition report_row_of (u : pydict) : result report_row :=
  let conta := py_or (dict_get u (py "conta") (PDict [])) (PDict []) in
  let news_list := py_or (dict_get u (py "news") (PList [])) (PList []) in
  rbind (if truthy news_list
         then rbind (any_last news_list)
                (fun n => any_get n (py "descricao") (PStr []))
         else Ok (PStr [])) (fun last_news =>
  rbind (any_get conta (py "agencia") (PStr [])) (fun agencia =>
  rbind (any_get conta (py "numero") (PStr [])) (fun numero =>
  rbind (any_get conta (py "balanco") (PFloat (S754_zero false))) (fun balanco =>
  rbind (any_get conta (py "limite") (PFloat (S754_zero false))) (fun limite =>
  rbind (any_len news_list) (fun qtd =>
  rbind (clean_text_any last_news) (fun ultima =>
  Ok {| row_user_id := dict_get u (py "id") PNone;
        row_nome := dict_get u (py "nome") PNone;
        row_agencia := agencia;
        row_conta := numero;
        row_balanco := balanco;
        row_limite := limite;
        qtd_news_total := qtd;
        ultima_news := ultima |}))))))).

Definition report_rows (users : list pydict) : result (list report_row) :=
  rmap report_row_of users.

(** [save_report_csv] (etl.py, 303-324) *)
Definition save_report_csv (users : list pydict) (path : pystr) : Run W unit :=
  rows <- lift (report_rows users) ;;
  call (to_csv path rows) ;;;
  info (py "Relatório gerado para Excel: " ++ path).

(** ** Main *)

(** The fetch loop of [main] (etl.py, 343-347); [users] is the batch so
    far. *)
Fixpoint fetch_users (settings : Settings) (user_ids : list Z) (users : list pydict)
  : Run W (list pydict) :=
  match user_ids with
  | [] => ret users
  | uid :: rest =>
      u <- get_user (api_url settings) uid (timeout_sec settings) ;;
      match u with
      | Some d =>
          if truthy (PDict d)
          then fetch_users settings rest (users ++ [d])
          else fetch_users settings rest users
      | None => fetch_users settings rest users
      end
  end.

(** The update loop of [main] (etl.py, 363-366). *)
Fixpoint update_users (settings : Settings) (users : list pydict) (ok_count : Z)
  : Run W Z :=
  match users with
  | [] => ret ok_count
  | u :: rest =>
      b <- update_user (api_url settings) u (timeout_sec settings) ;;
      update_users settings rest (if b then ok_count + 1 else ok_count)%Z
  end.

(** [str(ids)] of a list of ints. *)
Definition str_of_ints (ids : list Z) : pystr :=
  py "[" ++ concat (match map str_of_int ids with
                    | [] => []
                    | s :: ss => s :: map (fun t => py ", " ++ t) ss
                    end) ++ py "]".

(** [main] (etl.py, 331-369), from the settings that [load_settings]
    returned.  It returns the number of successful updates and the size
    of the batch, as the last lines print them. *)
Definition main (settings : Settings) : Run W (Z * nat) :=
  info (py "API_URL=" ++ api_url settings) ;;;
  info (py "CSV_PATH=" ++ csv_path settings) ;;;
  info (py "GEMINI_MODEL=" ++ gemini_model settings) ;;;
  user_ids <- read_user_ids (csv_path settings) ;;
  info (py "IDs do CSV: " ++ str_of_ints user_ids) ;;;
  separator ;;;
  users <- fetch_users settings user_ids [] ;;
  match users with
  | [] => raise (Exc RuntimeError (py "Nenhum usuário válido foi carregado da API."))
  | _ :: _ =>
      info (py "Usuários carregados da API (resumo):" ++ [10%N]) ;;;
      table <- lift (print_users_table users (wrap_news_width settings)) ;;
      print (Table table) ;;;
      separator ;;;
      users <- transform_add_news_gemini settings users ;;
      separator ;;;
      save_report_csv users (report_path settings) ;;;
      ok_count <- update_users settings users 0%Z ;;
      done (py "Atualizações concluídas: " ++ str_of_int ok_count ++ py "/"
            ++ str_of_int (Z.of_nat (length users))) ;;;
      done (py "Abra o relatório no Excel: " ++ report_path settings) ;;;
      ret (ok_count, length users)
  end.

End Pipeline.

(* ================================================================== *)
(** * The lookup on any decoded body *)
(* ================================================================== *)

(** [resp.json()] returns whatever JSON value the body holds, and nothing
    checks it against the annotation of [get_user].  This module embeds
    the lookup and the fetch loop on the decoded values themselves:
    Python's [None] is [PNone]. *)
Module Untyped.

(** A [requests.Response]: [json] is what [resp.json()] returns or
    raises. *)
Record response := {
  status_code : Z;
  text : pystr;
  json : result pyval;
}.

(** [requests.get(url, timeout=t)] *)
Class World (W : Type) : Type := {
  requests_get : pystr -> Z -> W -> result response * W;
}.

Section Fetch.
Context {RT : Runtime} {W : Type} {WD : World W}.

(** [get_user] (etl.py, 164-176) *)
Definition get_user (api : pystr) (user_id : Z) (timeout : Z) : Run W pyval :=
  let url := user_url api (PInt user_id) in
  resp <- call (requests_get url timeout) ;;
  if (status_code resp =? 200)%Z then
    lift (json resp)
  else if (status_code resp =? 404)%Z then
    warn (py "Usuário " ++ str_of_int user_id
          ++ py " não encontrado na API (404). Ignorando.") ;;;
    ret PNone
  else
    error (py "GET " ++ url ++ py " -> " ++ str_of_int (status_code resp)
           ++ py " | " ++ firstn 200 (text resp)) ;;;
    ret PNone.

(** The fetch loop of [main] (etl.py, 343-347); [users] is the batch so
    far. *)
Fixpoint fetch_users (settings : Settings) (user_ids : list Z) (users : list pyval)
  : Run W (list pyval) :=
  match user_ids with
  | [] => ret users
  | uid :: rest =>
      u <- get_user (api_url settings) uid (timeout_sec settings) ;;
      if truthy u
      then fetch_users settings rest (users ++ [u])
      else fetch_users settings rest users
  end.

End Fetch.

End Untyped.

(** A response that keeps to the annotation, as a response with any
    body. *)
Definition untyped_json (j : result (option pydict)) : result pyval :=
  match j with
  | Ok (Some d) => Ok (PDict d)
  | Ok None => Ok PNone
  | Raise e => Raise e
  end.

Definition untyped_response (r : response) : Untyped.response :=
  {| Untyped.status_code := status_code r;
     Untyped.text := text r;
     Untyped.json := untyped_json (json r) |}.

(** A world whose lookups keep to the annotation, seen untyped. *)
Definition untyped_world {W} (WD : World W) : Untyped.World W := {|
  Untyped.requests_get url t w :=
    match requests_get url t w with
    | (Ok r, w') => (Ok (untyped_response r), w')
    | (Raise e, w') => (Raise e, w')
    end;
|}.

(** A mapping of the batch. *)
Definition is_mapping (u : pyval) : bool :=
  match u with
  | PDict _ => true
  | _ => false
  end.

(* ================================================================== *)
(** * Settings and presentation helpers *)
(* ================================================================== *)

(** The process environment, as [os.getenv] reads it once [load_dotenv()]
    has run. *)
Definition environ := pystr -> option pystr.

(** [os.getenv(key, default)] *)
Definition getenv (env : environ) (key default : pystr) : pystr :=
  match env key with
  | Some v => v
  | None => default
  end.

(** [s.rstrip(chars)]: the trailing characters that belong to [chars] are
    removed. *)
Fixpoint rstrip_chars (chars s : pystr) : pystr :=
  match s with
  | [] => []
  | c :: s' =>
      match rstrip_chars chars s' with
      | [] => if existsb (N.eqb c) chars then [] else [c]
      | r => c :: r
      end
  end.

(** [load_settings] (etl.py, 40-65).  [timeout_sec] is not passed to
    [Settings], which gives it its default. *)
Definition load_settings {RT : Runtime} (env : environ) : result Settings :=
  let api_url :=
    rstrip_chars (py "/")
      (getenv env (py "API_URL") (py "https://usersapipython.up.railway.app")) in
  let csv_path := getenv env (py "CSV_PATH") (py "data/users_ids.csv") in
  let gemini_api_key := env (py "GEMINI_API_KEY") in
  let gemini_model := getenv env (py "GEMINI_MODEL") (py "gemini-2.5-flash") in
  let icon_url :=
    getenv env (py "ICON_URL")
      (py "https://digitalinnovationone.github.io/santander-dev-week-2023-api/icons/credit.svg") in
  let report_path := getenv env (py "REPORT_PATH") (py "report_etl.csv") in
  rbind (py_int (PStr (getenv env (py "WRAP_NEWS_WIDTH") (py "75"))))
    (fun wrap_news_width =>
       Ok {| api_url := api_url;
             csv_path := csv_path;
             gemini_api_key := gemini_api_key;
             gemini_model := gemini_model;
             icon_url := icon_url;
             timeout_sec := 20;
             report_path := report_path;
             wrap_news_width := wrap_news_width |}).

Definition COMMA : pychar := 44%N.
Definition DOT : pychar := 46%N.
Definition LETTER_X : pychar := 88%N.
Definition SLASH : pychar := 47%N.

Section FormatBRL.

(** [f"{n:,.2f}"] for [n = float(value)], or for [0.0] when [float(value)]
    raises: the number with two decimals, [","] between the thousands and
    ["."] before the decimals. *)
Variable format_grouped : pyval -> pystr.

(** [format_brl] (etl.py, 118-130) *)
Definition format_brl (value : pyval) : pystr :=
  let s := format_grouped value in
  let s := replace (py ".") (py ",") (replace (py ",") (py "X") s) in
  let s := replace (py "X") (py ".") s in
  py "R$ " ++ s.

End FormatBRL.

(** What [format_brl] does to one character of the formatted number. *)
Definition swap_separator (c : pychar) : pychar :=
  if (c =? COMMA)%N then DOT else if (c =? DOT)%N then COMMA else c.

(** ** Console lines *)

(** A warning or an error line. *)
Definition is_problem (l : console_line) : bool :=
  match l with
  | Log WARN _ | Log ERROR _ => true
  | _ => false
  end.

Definition is_error (l : console_line) : bool :=
  match l with
  | Log ERROR _ => true
  | _ => false
  end.

(* ================================================================== *)
(** * Records as the data model describes them *)
(* ================================================================== *)

(** The content items of a record: its ["news"] list, empty when the key
    is absent. *)
Definition content_items (u : pydict) : list pyval :=
  match dict_lookup u (py "news") with
  | Some (PList l) => l
  | _ => []
  end.

Section Records.
Context {RT : Runtime}.

(** A content item is a mapping whose identifier is read as the integer
    [z] by [int(n.get("id", 0))]: zero when it has none. *)
Definition has_id (n : pyval) (z : Z) : Prop :=
  exists d, n = PDict d /\ py_int (dict_get d (py "id") (PInt 0)) = Ok z.

Definition item_ok (n : pyval) : bool :=
  match n with
  | PDict d =>
      match py_int (dict_get d (py "id") (PInt 0)) with
      | Ok _ => true
      | Raise _ => false
      end
  | _ => false
  end.

(** The content list of a record is absent or a list of content items. *)
Definition news_ok (u : pydict) : bool :=
  match dict_lookup u (py "news") with
  | None => true
  | Some (PList l) => forallb item_ok l
  | Some _ => false
  end.

End Records.

(** The account of a record is absent, empty or a mapping. *)
Definition conta_ok (u : pydict) : bool :=
  match py_or (dict_get u (py "conta") (PDict [])) (PDict []) with
  | PDict _ => true
  | _ => false
  end.

Definition record_ok {RT : Runtime} (u : pydict) : bool := news_ok u && conta_ok u.

(** [u'] is [u] with one content item of at most 100 characters appended
    and nothing else changed. *)
Definition enriched (icon : pystr) (u u' : pydict) : Prop :=
  (exists id msg,
      content_items u' = content_items u ++ [news_item id icon msg]
      /\ length msg <= 100)
  /\ forall k, k <> py "news" -> dict_lookup u' k = dict_lookup u k.

(* ================================================================== *)
(** * A scripted world, for running the pipeline on examples *)
(* ================================================================== *)

Module Scripted.

(** The calls a run makes, in order. *)
Inductive request :=
| GET (url : pystr)
| PUT (url : pystr) (body : pydict)
| GENERATE (model prompt : pystr)
| READ_CSV (path : pystr)
| TO_CSV (path : pystr) (rows : list report_row).

(** A script answers every call from the call alone. *)
Record script := {
  on_get : pystr -> result response;
  on_put : pystr -> pydict -> result response;
  on_generate : pystr -> result (option pystr);
  on_read_csv : result dataframe;
}.

(** The world of a script is the list of the calls made so far. *)
Definition world_of (sc : script) : World (list request) := {|
  requests_get url _ w := (on_get sc url, w ++ [GET url]);
  requests_put url body _ w := (on_put sc url body, w ++ [PUT url body]);
  generate_content model prompt w :=
    (on_generate sc prompt, w ++ [GENERATE model prompt]);
  read_csv path w := (on_read_csv sc, w ++ [READ_CSV path]);
  to_csv path rows w := (Ok tt, w ++ [TO_CSV path rows]);
|}.

(** A runtime for the examples: conversions of integers and of finite
    floats only, and an empty table. *)
Definition runtime : Runtime := {|
  int_of_str _ := None;
  str_of_compound _ := [];
  astype_int v :=
    match v with
    | PInt z => Ok z
    | PFloat (S754_zero _) => Ok 0%Z
    | PFloat (S754_finite s m e) =>
        Ok (if s then - Z.shiftl (Z.pos m) e else Z.shiftl (Z.pos m) e)%Z
    | _ => Raise (Exc ValueError (py "cannot convert"))
    end;
  print_users_table _ _ := Ok [];
|}.

Definition start : state (list request) := {| world := []; console := [] |}.

Definition settings : Settings := {|
  api_url := py "https://api.test";
  csv_path := py "data/users_ids.csv";
  gemini_api_key := Some (py "key");
  gemini_model := py "gemini-2.5-flash";
  icon_url := py "https://icons.test/credit.svg";
  timeout_sec := 20;
  report_path := py "report_etl.csv";
  wrap_news_width := 75;
|}.

(** The settings of a run whose environment has no [GEMINI_API_KEY]. *)
Definition settings_without_key : Settings := {|
  api_url := api_url settings;
  csv_path := csv_path settings;
  gemini_api_key := None;
  gemini_model := gemini_model settings;
  icon_url := icon_url settings;
  timeout_sec := timeout_sec settings;
  report_path := report_path settings;
  wrap_news_width := wrap_news_width settings;
|}.

Definition responded (status : Z) (body : pystr) (js : result (option pydict))
  : result response :=
  Ok {| status_code := status; text := body; json := js |}.

Definition not_json : result (option pydict) :=
  Raise (Exc JSONDecodeError (py "Expecting value")).

Definition connection_error : pyexc :=
  Exc RequestException (py "Connection refused").

(** The float [1.0 * x] for a small positive integer [x]. *)
Definition float_of_pos (x : positive) : pyval := PFloat (S754_finite false x 0).

Definition ana : pydict :=
  [(py "id", PInt 1); (py "nome", PStr (py "Ana"));
   (py "conta", PDict [(py "agencia", PStr (py "0001")); (py "numero", PStr (py "12345-6"));
                       (py "balanco", float_of_pos 20000); (py "limite", float_of_pos 500)]);
   (py "news", PList [PDict [(py "id", PInt 1); (py "descricao", PStr (py "a"))];
                      PDict [(py "id", PInt 2); (py "descricao", PStr (py "b"))];
                      PDict [(py "id", PInt 4); (py "descricao", PStr (py "c"))]])].

Definition bia : pydict :=
  [(py "id", PInt 2); (py "nome", PStr (py "Bia"))].

(** Identifiers 1 and 2 exist, every other lookup is a 404; the service
    generates a text; every update succeeds. *)
Definition happy : script := {|
  on_get url :=
    if pystr_eqb url (py "https://api.test/usuario/1") then responded 200 [] (Ok (Some ana))
    else if pystr_eqb url (py "https://api.test/usuario/2") then responded 200 [] (Ok (Some bia))
    else responded 404 (py "not found") not_json;
  on_put _ _ := responded 200 [] not_json;
  on_generate _ := Ok (Some (py "**Invista** hoje!"));
  on_read_csv := Ok [(py "user_id", [PInt 1; PInt 2; PInt 999])];
|}.

(** As [happy], but the lookup of identifier 1 fails in transport. *)
Definition get_fails : script := {|
  on_get url :=
    if pystr_eqb url (py "https://api.test/usuario/1") then Raise connection_error
    else on_get happy url;
  on_put := on_put happy;
  on_generate := on_generate happy;
  on_read_csv := on_read_csv happy;
|}.

(** As [happy], but the update of identifier 1 fails in transport. *)
Definition put_fails : script := {|
  on_get := on_get happy;
  on_put url body :=
    if pystr_eqb url (py "https://api.test/usuario/1") then Raise connection_error
    else on_put happy url body;
  on_generate := on_generate happy;
  on_read_csv := on_read_csv happy;
|}.

(** As [happy], but every call of the generation service raises. *)
Definition generation_fails (e : pyexc) : script := {|
  on_get := on_get happy;
  on_put := on_put happy;
  on_generate _ := Raise e;
  on_read_csv := on_read_csv happy;
|}.

(** As [happy], but the identifier column has no value. *)
Definition no_ids : script := {|
  on_get := on_get happy;
  on_put := on_put happy;
  on_generate := on_generate happy;
  on_read_csv := Ok [(py "user_id", [PFloat S754_nan; PFloat S754_nan]);
                     (py "nome", [PStr (py "Ana"); PStr (py "Bia")])];
|}.

(** As [happy], but the service answers every update with a 500. *)
Definition put_rejected : script := {|
  on_get := on_get happy;
  on_put _ _ := responded 500 (py "Internal Server Error") not_json;
  on_generate := on_generate happy;
  on_read_csv := on_read_csv happy;
|}.

(** As [happy], but the lookup of identifier 1 answers 200 with the empty
    object. *)
Definition empty_body : script := {|
  on_get url :=
    if pystr_eqb url (py "https://api.test/usuario/1") then responded 200 (py "{}") (Ok (Some []))
    else on_get happy url;
  on_put := on_put happy;
  on_generate := on_generate happy;
  on_read_csv := on_read_csv happy;
|}.

(** A file with a second recognized column, a missing value and a
    repeated identifier: pandas reads the column as floats. *)
Definition csv_with_gaps : script := {|
  on_get := on_get happy;
  on_put := on_put happy;
  on_generate := on_generate happy;
  on_read_csv :=
    Ok [(py "UserID", [PInt 7; PInt 8; PInt 9; PInt 10]);
        (py "user_id", [float_of_pos 3; PFloat S754_nan; float_of_pos 1; float_of_pos 3])];
|}.

(** The URLs of the lookups and of the updates among the calls made. *)
Definition urls_get (w : list request) : list pystr :=
  flat_map (fun r => match r with GET url => [url] | _ => [] end) w.

Definition urls_put (w : list request) : list pystr :=
  flat_map (fun r => match r with PUT url _ => [url] | _ => [] end) w.

(** As [happy], but no identifier is known to the service. *)
Definition nobody : script := {|
  on_get _ := responded 404 (py "not found") not_json;
  on_put := on_put happy;
  on_generate := on_generate happy;
  on_read_csv := on_read_csv happy;
|}.

(** As [happy], but the body of the answer for identifier 1 is no JSON. *)
Definition broken_body : script := {|
  on_get url :=
    if pystr_eqb url (py "https://api.test/usuario/1") then responded 200 (py "<html>") not_json
    else on_get happy url;
  on_put := on_put happy;
  on_generate := on_generate happy;
  on_read_csv := on_read_csv happy;
|}.

(** As [happy], but the file has no recognized column: the name differs
    in case. *)
Definition wrong_header : script := {|
  on_get := on_get happy;
  on_put := on_put happy;
  on_generate := on_generate happy;
  on_read_csv := Ok [(py "USER_ID", [PInt 1; PInt 2])];
|}.

(** As [happy], but the service generates markdown with nothing in it. *)
Definition blank_text : script := {|
  on_get := on_get happy;
  on_put := on_put happy;
  on_generate _ := Ok (Some (py " ** ` ` ** "));
  on_read_csv := on_read_csv happy;
|}.

(** A record whose content list is [null]. *)
Definition caio : pydict :=
  [(py "id", PInt 3); (py "nome", PStr (py "Caio")); (py "news", PNone)].

(** An environment that sets the address with trailing slashes, and
    nothing else. *)
Definition env_with_slashes : environ :=
  fun k => if pystr_eqb k (py "API_URL") then Some (py "https://api.test//") else None.

(** A runtime as [runtime] that reads ["75"] as 75. *)
Definition runtime_75 : Runtime := {|
  int_of_str s := if pystr_eqb s (py "75") then Some 75%Z else None;
  str_of_compound := @str_of_compound runtime;
  astype_int := @astype_int runtime;
  print_users_table := @print_users_table runtime;
|}.

(** The world of a script on a disk that cannot be written. *)
Definition disk_full : pyexc := Exc OSError (py "No space left on device").

Definition world_without_disk (sc : script) : World (list request) := {|
  requests_get := @requests_get _ (world_of sc);
  requests_put := @requests_put _ (world_of sc);
  generate_content := @generate_content _ (world_of sc);
  read_csv := @read_csv _ (world_of sc);
  to_csv path rows w := (Raise disk_full, w ++ [TO_CSV path rows]);
|}.

Definition run_main (sc : script) (st : Settings) :=
  @main runtime _ (world_of sc) st start.

End Scripted.

(** Scripted lookups with any body. *)
Module ScriptedUntyped.

Definition world_of (on_get : pystr -> result Untyped.response)
  : Untyped.World (list Scripted.request) := {|
  Untyped.requests_get url _ w := (on_get url, w ++ [Scripted.GET url]);
|}.

Definition responded (status : Z) (body : pystr) (js : result pyval)
  : result Untyped.response :=
  Ok {| Untyped.status_code := status; Untyped.text := body; Untyped.json := js |}.

Definition not_found : result Untyped.response :=
  responded 404 (py "not found") (Raise (Exc JSONDecodeError (py "Expecting value"))).

(** Identifier 2 is Bia; the lookups of identifiers 1, 3, 4, 5, 6 and 7
    answer 200 with the falsy bodies [{}], [null], [[]], [""], [0] and
    [false]; every other identifier is not found. *)
Definition falsy_bodies (url : pystr) : result Untyped.response :=
  if pystr_eqb url (py "https://api.test/usuario/1") then responded 200 (py "{}") (Ok (PDict []))
  else if pystr_eqb url (py "https://api.test/usuario/2")
       then responded 200 [] (Ok (PDict Scripted.bia))
  else if pystr_eqb url (py "https://api.test/usuario/3") then responded 200 (py "null") (Ok PNone)
  else if pystr_eqb url (py "https://api.test/usuario/4") then responded 200 (py "[]") (Ok (PList []))
  else if pystr_eqb url (py "https://api.test/usuario/5")
       then responded 200 [34; 34]%N (Ok (PStr []))
  else if pystr_eqb url (py "https://api.test/usuario/6") then responded 200 (py "0") (Ok (PInt 0))
  else if pystr_eqb url (py "https://api.test/usuario/7")
       then responded 200 (py "false") (Ok (PBool false))
  else not_found.

(** Identifier 2 is Bia; the lookup of identifier 1 answers 200 with the
    body [[1]]. *)
Definition list_body (url : pystr) : result Untyped.response :=
  if pystr_eqb url (py "https://api.test/usuario/1")
  then responded 200 (py "[1]") (Ok (PList [PInt 1]))
  else if pystr_eqb url (py "https://api.test/usuario/2")
       then responded 200 [] (Ok (PDict Scripted.bia))
  else not_found.

Definition run_fetch (on_get : pystr -> result Untyped.response) (user_ids : list Z) :=
  @Untyped.fetch_users Scripted.runtime _ (world_of on_get)
    Scripted.settings user_ids [] Scripted.start.

End ScriptedUntyped.

(* ================================================================== *)
(** * Properties *)
(* ================================================================== *)

Example py_utf8 : py "Você é" = [86; 111; 99; 234; 32; 233]%N.
Proof. reflexivity. Qed.

Example clean_text_markdown :
  clean_text (py "  **Invista**   `hoje`,  *Ana*! ") = py "Invista hoje, Ana!".
Proof. reflexivity. Qed.

Example replace_non_overlapping :
  replace (py "aa") (py "b") (py "aaaaa") = py "bba".
Proof. reflexivity. Qed.

(** Identifiers [1, 2, 999] with 999 not found: a batch of two, two
    updates, both successful. *)
Example happy_run :
  fst (Scripted.run_main Scripted.happy Scripted.settings) = Ok (2%Z, 2).
Proof. vm_compute. reflexivity. Qed.

(** ** Strings *)

Section StringFacts.

Lemma is_space_SPACE : is_space SPACE = true.
Proof. reflexivity. Qed.

Lemma starts_with_head (a c : pychar) (old s : pystr) :
  a <> c -> starts_with (a :: old) (c :: s) = false.
Proof.
  intros Hac. simpl. destruct (N.eqb_spec a c); [contradiction | reflexivity].
Qed.

Lemma occurs_absent_head (a : pychar) (old s : pystr) :
  ~ In a s -> occurs (a :: old) s = false.
Proof.
  induction s as [|c s IH]; intros Hin; [reflexivity|].
  cbn [occurs]. rewrite starts_with_head.
  - apply IH. intros H. apply Hin. now right.
  - intros ->. apply Hin. now left.
Qed.

(** Replacing a string that does not occur changes nothing. *)
Lemma replace_scan_absent (old new s : pystr) :
  occurs old s = false -> replace_scan old new 0 s = s.
Proof.
  induction s as [|c s IH]; intros Hocc; [reflexivity|].
  cbn [occurs] in Hocc. apply orb_false_iff in Hocc as [Hsw Hocc].
  cbn [replace_scan]. rewrite Hsw. now rewrite IH.
Qed.

Lemma replace_absent (a : pychar) (old new s : pystr) :
  occurs (a :: old) s = false -> replace (a :: old) new s = s.
Proof. apply replace_scan_absent. Qed.

(** Deleting a one-character string is a filter. *)
Lemma replace_char (a : pychar) (s : pystr) :
  replace [a] [] s = filter (fun c => negb (a =? c)%N) s.
Proof.
  unfold replace. induction s as [|c s IH]; [reflexivity|].
  cbn [replace_scan starts_with filter length Nat.sub app].
  rewrite andb_true_r. destruct (a =? c)%N; cbn [negb]; now rewrite IH.
Qed.

Lemma replace_char_absent (a : pychar) (s : pystr) : ~ In a (replace [a] [] s).
Proof.
  rewrite replace_char. intros H. apply filter_In in H as [_ H].
  now rewrite N.eqb_refl in H.
Qed.

Lemma replace_char_incl (a c : pychar) (s : pystr) :
  In c (replace [a] [] s) -> In c s.
Proof. rewrite replace_char. intros H. now apply filter_In in H. Qed.

Lemma sub_ws_In (c : pychar) (s : pystr) (b : bool) :
  In c (sub_ws b s) -> c = SPACE \/ In c s.
Proof.
  revert b. induction s as [|x s IH]; intros b H; [contradiction|].
  cbn [sub_ws] in H. destruct (is_space x).
  - destruct b.
    + destruct (IH _ H); [now left | right; now right].
    + destruct H as [<- | H]; [now left|].
      destruct (IH _ H); [now left | right; now right].
  - destruct H as [<- | H]; [right; now left|].
    destruct (IH _ H); [now left | right; now right].
Qed.

Lemma lstrip_In (c : pychar) (s : pystr) : In c (lstrip s) -> In c s.
Proof.
  induction s as [|x s IH]; [easy|]. cbn [lstrip].
  destruct (is_space x); [intros H; right; auto | easy].
Qed.

Lemma rstrip_In (c : pychar) (s : pystr) : In c (rstrip s) -> In c s.
Proof.
  induction s as [|x s IH]; [easy|]. cbn [rstrip].
  destruct (rstrip s) as [|y r].
  - destruct (is_space x); [easy|]. intros [<- | []]. now left.
  - intros [<- | H]; [now left | right; auto].
Qed.

Lemma strip_In (c : pychar) (s : pystr) : In c (strip s) -> In c s.
Proof. intros H. apply lstrip_In. now apply rstrip_In. Qed.

Lemma sub_ws_cons (b : bool) (c : pychar) (s : pystr) :
  sub_ws b (c :: s) =
  if is_space c then (if b then sub_ws true s else SPACE :: sub_ws true s)
  else c :: sub_ws false s.
Proof. reflexivity. Qed.

Lemma sub_ws_length (s : pystr) (b : bool) : length (sub_ws b s) <= length s.
Proof.
  revert b. induction s as [|c s IH]; intros b; [reflexivity|].
  pose proof (IH true). pose proof (IH false).
  cbn [sub_ws]. destruct (is_space c); [destruct b|]; cbn [length]; lia.
Qed.

Lemma sub_ws_collapsed (s : pystr) :
  (forall b, collapsed false (sub_ws b s)) /\ collapsed true (sub_ws true s).
Proof.
  unfold collapsed. induction s as [|c s [IH1 IH2]]; [split; [intros b|]; reflexivity|].
  cbn [sub_ws]. destruct (is_space c) eqn:Hc.
  - split; [intros [|]|]; auto.
    cbn [sub_ws]. rewrite is_space_SPACE. now rewrite IH2.
  - split; [intros b|]; cbn [sub_ws]; rewrite Hc; now rewrite IH1.
Qed.

Lemma collapsed_inv (b : bool) (c : pychar) (s : pystr) :
  collapsed b (c :: s) ->
  if is_space c then b = false /\ c = SPACE /\ collapsed true s
  else collapsed false s.
Proof.
  unfold collapsed. cbn [sub_ws]. destruct (is_space c).
  - destruct b.
    + intros H. pose proof (sub_ws_length s true) as Hl.
      rewrite H in Hl. cbn [length] in Hl. lia.
    + intros H. injection H as <- H. auto.
  - intros H. now injection H.
Qed.

Lemma collapsed_true_lstrip (s : pystr) :
  collapsed true s -> lstrip s = s /\ collapsed false s.
Proof.
  destruct s as [|c s]; [now split|]. intros H.
  pose proof (collapsed_inv H) as Hi. unfold collapsed in *.
  cbn [lstrip sub_ws] in *. destruct (is_space c).
  - destruct Hi as [Hb _]. discriminate.
  - now split.
Qed.

Lemma collapsed_lstrip (s : pystr) :
  collapsed false s -> collapsed false (lstrip s) /\ lstrip (lstrip s) = lstrip s.
Proof.
  destruct s as [|c s]; [now split|]. intros H.
  pose proof (collapsed_inv H) as Hi. cbn [lstrip].
  destruct (is_space c) eqn:Hc.
  - destruct Hi as (_ & _ & Hs). apply collapsed_true_lstrip in Hs as [Hl Hs].
    rewrite Hl. now split.
  - split; [assumption|]. cbn [lstrip]. now rewrite Hc.
Qed.

Lemma collapsed_rstrip (s : pystr) (b : bool) :
  collapsed b s -> collapsed b (rstrip s).
Proof.
  revert b. induction s as [|c s IH]; intros b H; [assumption|].
  pose proof (collapsed_inv H) as Hi. cbn [rstrip].
  destruct (is_space c) eqn:Hc.
  - destruct Hi as (-> & -> & Hs). apply IH in Hs.
    destruct (rstrip s) as [|y r]; [reflexivity|].
    unfold collapsed in *. rewrite sub_ws_cons, is_space_SPACE. now rewrite Hs.
  - apply IH in Hi. unfold collapsed in *.
    destruct (rstrip s) as [|y r]; rewrite sub_ws_cons, Hc; [reflexivity|].
    now rewrite Hi.
Qed.

Lemma rstrip_idempotent (s : pystr) : rstrip (rstrip s) = rstrip s.
Proof.
  induction s as [|c s IH]; [reflexivity|]. cbn [rstrip].
  destruct (rstrip s) as [|y r] eqn:Hr.
  - destruct (is_space c) eqn:Hc; [reflexivity|]. cbn [rstrip]. now rewrite Hc.
  - change (rstrip (c :: y :: r)) with
      (match rstrip (y :: r) with [] => if is_space c then [] else [c] | x :: r' => c :: x :: r' end).
    now rewrite IH.
Qed.

(** Stripping on the right keeps a first character that is no space. *)
Lemma lstrip_rstrip (s : pystr) : lstrip s = s -> lstrip (rstrip s) = rstrip s.
Proof.
  destruct s as [|c s]; [reflexivity|]. cbn [lstrip rstrip].
  destruct (is_space c) eqn:Hc.
  - intros H. pose proof (f_equal (@length _) H) as Hl. cbn [length] in Hl.
    assert (Hle : length (lstrip s) <= length s).
    { clear. induction s as [|x s IH]; [reflexivity|]. cbn [lstrip].
      destruct (is_space x); cbn [length]; lia. }
    lia.
  - intros _. destruct (rstrip s); cbn [lstrip]; now rewrite Hc.
Qed.

Lemma clean_text_clean (s : pystr) : clean (clean_text s).
Proof.
  unfold clean_text.
  set (x := replace (py "__") [] (replace (py "**") [] (strip s))).
  change (py "`") with [BACKTICK]. change (py "*") with [STAR].
  set (y := replace [STAR] [] (replace [BACKTICK] [] x)).
  assert (Hstar : ~ In STAR y) by apply replace_char_absent.
  assert (Htick : ~ In BACKTICK y).
  { intros H. apply replace_char_incl in H. now apply replace_char_absent in H. }
  assert (Hin : forall c, c <> SPACE -> ~ In c y -> ~ In c (strip (re_sub_ws y))).
  { intros c Hc Hy H. apply strip_In, sub_ws_In in H. tauto. }
  destruct (collapsed_lstrip (proj1 (sub_ws_collapsed y) false)) as [Hcl Hll].
  fold (re_sub_ws y) in Hcl, Hll.
  repeat split.
  - apply Hin; [discriminate | assumption].
  - apply Hin; [discriminate | assumption].
  - unfold strip. now apply lstrip_rstrip.
  - unfold strip. apply rstrip_idempotent.
  - unfold strip. now apply collapsed_rstrip.
Qed.

(** [clean_text] leaves a clean text without a double underscore as it is. *)
Lemma clean_text_fixpoint (t : pystr) :
  clean t -> occurs (py "__") t = false -> clean_text t = t.
Proof.
  intros (Hstar & Htick & Hl & Hr & Hc) Hund. unfold clean_text, strip.
  rewrite Hl, Hr.
  change (py "**") with [STAR; STAR]. change (py "*") with [STAR].
  change (py "`") with [BACKTICK].
  change (py "__") with [UNDERSCORE; UNDERSCORE] in *.
  rewrite (@replace_absent STAR [STAR] [] t (@occurs_absent_head STAR [STAR] t Hstar)).
  rewrite (@replace_absent UNDERSCORE [UNDERSCORE] [] t Hund).
  rewrite (@replace_absent BACKTICK [] [] t (@occurs_absent_head BACKTICK [] t Htick)).
  rewrite (@replace_absent STAR [] [] t (@occurs_absent_head STAR [] t Hstar)).
  unfold re_sub_ws. rewrite Hc. now rewrite Hl, Hr.
Qed.

(** Deleting never lengthens a text, and shortens one in which the
    deleted string occurs. *)
Lemma replace_scan_length (old s : pystr) (k : nat) :
  length (replace_scan old [] k s) <= length s.
Proof.
  revert k. induction s as [|c s IH]; intros k; [reflexivity|].
  cbn [replace_scan]. destruct k as [|k].
  - destruct (starts_with old (c :: s)); cbn [app length].
    + specialize (IH (length old - 1)). lia.
    + specialize (IH 0). lia.
  - cbn [length]. specialize (IH k). lia.
Qed.

Lemma replace_scan_shrinks (old s : pystr) :
  occurs old s = true -> length (replace_scan old [] 0 s) < length s.
Proof.
  induction s as [|c s IH]; [discriminate|].
  cbn [occurs replace_scan]. destruct (starts_with old (c :: s)); cbn [orb app length].
  - intros _. pose proof (replace_scan_length old s (length old - 1)). lia.
  - intros H. specialize (IH H). lia.
Qed.

Lemma lstrip_length (s : pystr) : length (lstrip s) <= length s.
Proof.
  induction s as [|c s IH]; [reflexivity|]. cbn [lstrip].
  destruct (is_space c); cbn [length]; lia.
Qed.

Lemma rstrip_length (s : pystr) : length (rstrip s) <= length s.
Proof.
  induction s as [|c s IH]; [reflexivity|]. cbn [rstrip].
  destruct (rstrip s); [destruct (is_space c)|]; cbn [length] in *; lia.
Qed.

Lemma strip_length (s : pystr) : length (strip s) <= length s.
Proof.
  unfold strip. pose proof (rstrip_length (lstrip s)). pose proof (lstrip_length s). lia.
Qed.

(** [clean_text] shortens a clean text with a double underscore. *)
Lemma clean_text_shrinks (t : pystr) :
  clean t -> occurs (py "__") t = true -> length (clean_text t) < length t.
Proof.
  intros (Hstar & _ & Hl & Hr & _) Hund. unfold clean_text, strip at 2.
  rewrite Hl, Hr.
  change (py "**") with [STAR; STAR]. change (py "*") with [STAR].
  change (py "`") with [BACKTICK].
  change (py "__") with [UNDERSCORE; UNDERSCORE] in *.
  rewrite (@replace_absent STAR [STAR] [] t (@occurs_absent_head STAR [STAR] t Hstar)).
  pose proof (replace_scan_shrinks _ _ Hund) as H1.
  fold (replace [UNDERSCORE; UNDERSCORE] [] t) in H1.
  set (x := replace [UNDERSCORE; UNDERSCORE] [] t) in *.
  pose proof (replace_scan_length [BACKTICK] x 0) as H2.
  fold (replace [BACKTICK] [] x) in H2. set (y := replace [BACKTICK] [] x) in *.
  pose proof (replace_scan_length [STAR] y 0) as H3.
  fold (replace [STAR] [] y) in H3. set (z := replace [STAR] [] y) in *.
  pose proof (sub_ws_length z false) as H4. fold (re_sub_ws z) in H4.
  pose proof (strip_length (re_sub_ws z)). lia.
Qed.

End StringFacts.

(** C10 (as amended): [clean_text] is idempotent on every input whose
    cleaned text contains no two adjacent underscores:
    [clean_text(clean_text(s)) = clean_text(s)] whenever ["__"] does not
    occur in [clean_text(s)]; and on no other input. *)
Theorem clean_text_idempotent_without_double_underscore (s : pystr) :
  (occurs (py "__") (clean_text s) = false ->
   clean_text (clean_text s) = clean_text s)
  /\ (occurs (py "__") (clean_text s) = true ->
      clean_text (clean_text s) <> clean_text s).
Proof.
  pose proof (clean_text_clean s) as Hclean. split; intros H.
  - apply clean_text_fixpoint; assumption.
  - intros Heq. pose proof (clean_text_shrinks Hclean H) as Hlt.
    rewrite Heq in Hlt. lia.
Qed.

(** On a text with markdown markers and irregular spacing. *)
Lemma clean_text_idempotent_witness :
  clean_text (clean_text (py "  **Invista**   `hoje`,  *Ana*! "))
  = clean_text (py "  **Invista**   `hoje`,  *Ana*! ").
Proof.
  apply (proj1 (clean_text_idempotent_without_double_underscore
                  (py "  **Invista**   `hoje`,  *Ana*! "))).
  reflexivity.
Defined.

(** C10 (as stated) fails: deleting the star of ["_*_"] leaves ["__"],
    which a second [clean_text] deletes. *)
Lemma clean_text_not_idempotent :
  clean_text (py "_*_") = py "__"
  /\ clean_text (clean_text (py "_*_")) = []
  /\ clean_text (clean_text (py "_*_")) <> clean_text (py "_*_").
Proof. split; [reflexivity | split; [reflexivity | discriminate]]. Qed.

(** ** The content generator *)

Section Generator.
Context {RT : Runtime} {W : Type} {WD : World W}.

Lemma firstn_100_length (t : pystr) : length (firstn 100 t) <= 100.
Proof. apply firstn_le_length. Qed.

(** What the generator does on each outcome of the service call. *)
Lemma generate_returns (model : pystr) (user : pydict) (s : state W) :
  let nome := dict_get user (py "nome") (PStr (py "Cliente")) in
  match generate_content model (news_prompt nome) (world s) with
  | (Ok response, w) =>
      let text := clean_text (match response with Some t => t | None => [] end) in
      generate_ai_news_gemini model user s
      = (Ok (firstn 100 (match text with [] => fallback_news nome | _ :: _ => text end)),
         with_world s w)
  | (Raise e, w) =>
      exists line,
      generate_ai_news_gemini model user s
      = (Ok (firstn 100 (clean_text (fallback_news nome))), logged (with_world s w) line)
  end.
Proof.
  intros nome. unfold generate_ai_news_gemini, try_except. fold nome.
  destruct (generate_content model (news_prompt nome) (world s)) as [[response|e] w] eqn:Hg.
  - unfold bind, call. rewrite Hg. reflexivity.
  - unfold bind at 1. unfold call. rewrite Hg.
    destruct e as [c msg | code message]; eexists; reflexivity.
Qed.

Lemma generate_total (model : pystr) (user : pydict) (s : state W) :
  exists text s',
    generate_ai_news_gemini model user s = (Ok text, s') /\ length text <= 100.
Proof.
  pose proof (generate_returns model user s) as H. cbv zeta in H.
  destruct (generate_content _ _ _) as [[response|e] w]; [|destruct H as [line H]];
    rewrite H; eauto using firstn_100_length.
Qed.

End Generator.

(** C4: whatever the generation service does on the call (a long text, an
    empty text, no text, an error), the content generator returns a text
    of at most 100 characters. *)
Theorem generated_text_at_most_100
  {RT : Runtime} {W : Type} {WD : World W}
  (model : pystr) (user : pydict) (s : state W) :
  exists text s',
    generate_ai_news_gemini model user s = (Ok text, s') /\ length text <= 100.
Proof.
  pose proof (generate_returns model user s) as H. cbv zeta in H.
  destruct (generate_content _ _ _) as [[response|e] w].
  - do 2 eexists. split; [exact H | apply firstn_le_length].
  - destruct H as [line H]. do 2 eexists. split; [exact H | apply firstn_le_length].
Qed.

(** ** Dictionaries *)

Lemma dict_lookup_set_same (d : pydict) (k : pystr) (v : pyval) :
  dict_lookup (dict_set d k v) k = Some v.
Proof.
  induction d as [|[k' v'] d IH]; cbn [dict_set dict_lookup].
  - destruct (pystr_eq_dec k k); [reflexivity | contradiction].
  - destruct (pystr_eq_dec k' k) as [->|Hk]; cbn [dict_lookup].
    + destruct (pystr_eq_dec k k); [reflexivity | contradiction].
    + destruct (pystr_eq_dec k' k); [contradiction | exact IH].
Qed.

Lemma dict_lookup_set_other (d : pydict) (k k0 : pystr) (v : pyval) :
  k0 <> k -> dict_lookup (dict_set d k v) k0 = dict_lookup d k0.
Proof.
  intros Hk. induction d as [|[k' v'] d IH]; cbn [dict_set dict_lookup].
  - destruct (pystr_eq_dec k k0); [congruence | reflexivity].
  - destruct (pystr_eq_dec k' k) as [->|Hk']; cbn [dict_lookup].
    + destruct (pystr_eq_dec k k0); [congruence | reflexivity].
    + destruct (pystr_eq_dec k' k0); [reflexivity | exact IH].
Qed.

Lemma content_items_set (d : pydict) (l : list pyval) :
  content_items (dict_set d (py "news") (PList l)) = l.
Proof. unfold content_items. now rewrite dict_lookup_set_same. Qed.

(** ** Identifiers of content items *)

Lemma max_of_spec (zs : list Z) (z : Z) :
  In (max_of z zs) (z :: zs) /\ Forall (fun i => (i <= max_of z zs)%Z) (z :: zs).
Proof.
  unfold max_of. revert z. induction zs as [|a zs IH]; intros z; cbn [fold_left].
  - split; [now left | constructor; [lia | constructor]].
  - destruct (IH (Z.max z a)) as [Hin Hub]. split.
    + destruct Hin as [Hin | Hin]; [|right; now right].
      rewrite <- Hin. destruct (Z.max_spec z a) as [[_ ->] | [_ ->]];
        [right; now left | now left].
    + inversion Hub as [|? ? Hm Hrest]; subst.
      constructor; [lia | constructor; [lia | assumption]].
Qed.

Section NextNewsId.
Context {RT : Runtime}.

Lemma ids_of_items (items : list pyval) (ids : list Z) :
  Forall2 has_id items ids ->
  rmap (fun n => rbind (any_get n (py "id") (PInt 0)) py_int) items = Ok ids.
Proof.
  induction 1 as [|n z items ids (d & -> & Hd) _ IH]; [reflexivity|].
  cbn [rmap any_get rbind]. rewrite Hd. cbn [rbind]. now rewrite IH.
Qed.

Lemma items_ok_have_ids (items : list pyval) :
  forallb item_ok items = true -> exists ids, Forall2 has_id items ids.
Proof.
  induction items as [|n items IH]; cbn [forallb]; intros H.
  - exists []. constructor.
  - apply andb_true_iff in H as [Hn Hrest]. destruct (IH Hrest) as [ids Hids].
    destruct n as [| | | | |l|d]; try discriminate. cbn [item_ok] in Hn.
    destruct (py_int (dict_get d (py "id") (PInt 0))) as [z|e] eqn:Hd; [|discriminate].
    exists (z :: ids). constructor; [|assumption]. exists d. now split.
Qed.

Lemma next_news_id_of_list (user : pydict) (items : list pyval) (ids : list Z) :
  py_or (dict_get user (py "news") (PList [])) (PList []) = PList items ->
  Forall2 has_id items ids ->
  next_news_id user
  = Ok (match ids with [] => 1 | z :: zs => 1 + max_of z zs end)%Z.
Proof.
  intros Hnews Hids. unfold next_news_id. rewrite Hnews.
  destruct Hids as [|n z items ids Hn Hids]; [reflexivity|].
  cbn [truthy negb any_iter rbind].
  rewrite (ids_of_items (Forall2_cons _ _ Hn Hids)). cbn [rbind].
  f_equal. lia.
Qed.

End NextNewsId.

(** C3: for every record whose content items carry identifiers,
    [next_news_id] returns 1 plus the largest identifier, and 1 when the
    content list is empty, null or absent ([items] is then empty). *)
Theorem next_news_id_is_one_plus_max
  {RT : Runtime} (user : pydict) (items : list pyval) (ids : list Z) :
  py_or (dict_get user (py "news") (PList [])) (PList []) = PList items ->
  Forall2 has_id items ids ->
  next_news_id user
  = Ok (match ids with [] => 1 | z :: zs => 1 + max_of z zs end)%Z
  /\ (forall z zs, ids = z :: zs ->
        In (max_of z zs) ids /\ Forall (fun i => (i <= max_of z zs)%Z) ids).
Proof.
  intros Hnews Hids. split.
  - now apply next_news_id_of_list with (items := items).
  - intros z zs ->. apply max_of_spec.
Qed.

(** The identifiers [1, 2, 4] give 5. *)
Lemma next_news_id_1_2_4 :
  @next_news_id Scripted.runtime Scripted.ana = Ok 5%Z.
Proof.
  refine (proj1 (@next_news_id_is_one_plus_max Scripted.runtime Scripted.ana
                   (content_items Scripted.ana) [1; 2; 4]%Z eq_refl _)).
  repeat (constructor; [eexists; split; reflexivity|]). constructor.
Defined.

Example next_news_id_empty_list :
  @next_news_id Scripted.runtime [(py "id", PInt 7); (py "news", PList [])] = Ok 1%Z.
Proof. reflexivity. Qed.

Example next_news_id_absent :
  @next_news_id Scripted.runtime Scripted.bia = Ok 1%Z.
Proof. reflexivity. Qed.

Example next_news_id_null :
  @next_news_id Scripted.runtime [(py "news", PNone)] = Ok 1%Z.
Proof. reflexivity. Qed.

(** ** The record enricher *)

Section Enricher.
Context {RT : Runtime} {W : Type} {WD : World W}.

Lemma news_ok_next_id (u : pydict) :
  news_ok u = true ->
  exists id,
    next_news_id
      (dict_setdefault u (py "news") (PList [])) = Ok id
    /\ dict_lookup (dict_setdefault u (py "news") (PList [])) (py "news")
       = Some (PList (content_items u)).
Proof.
  unfold news_ok, dict_setdefault, content_items.
  destruct (dict_lookup u (py "news")) as [v|] eqn:Hnews.
  - destruct v as [| | | | |l|]; try discriminate. intros Hok.
    destruct (items_ok_have_ids _ Hok) as [ids Hids].
    eexists. split; [|exact Hnews].
    apply next_news_id_of_list with (items := l); [|exact Hids].
    unfold dict_get. rewrite Hnews. now destruct l.
  - intros _. exists 1%Z. split; [|apply dict_lookup_set_same].
    unfold next_news_id, dict_get. now rewrite dict_lookup_set_same.
Qed.

(** On a record with a well-formed content list the loop body returns:
    the generated text is appended as one content item. *)
Lemma add_news_ok (settings : Settings) (u : pydict) (s : state W) :
  news_ok u = true ->
  exists msg id s1 s2,
    generate_ai_news_gemini (gemini_model settings) u s = (Ok msg, s1)
    /\ add_news settings u s
       = (Ok (dict_set (dict_setdefault u (py "news") (PList [])) (py "news")
                (PList (content_items u ++ [news_item id (icon_url settings) msg]))),
          s2).
Proof.
  intros Hok.
  destruct (generate_total (gemini_model settings) u s) as (msg & s1 & Hgen & _).
  destruct (news_ok_next_id _ Hok) as (id & Hid & Hnews).
  exists msg, id, s1. eexists. split; [exact Hgen|].
  unfold add_news. unfold bind at 1. rewrite Hgen. rewrite Hnews.
  unfold bind at 1. unfold lift. rewrite Hid. reflexivity.
Qed.

Lemma add_news_enriched (settings : Settings) (u : pydict) (s : state W) :
  news_ok u = true ->
  exists u' s', add_news settings u s = (Ok u', s') /\ enriched (icon_url settings) u u'.
Proof.
  intros Hok. destruct (add_news_ok settings u s Hok) as (msg & id & s1 & s2 & Hgen & Hadd).
  do 2 eexists. split; [exact Hadd|]. split.
  - exists id, msg. split; [apply content_items_set|].
    destruct (generate_total (gemini_model settings) u s) as (t & s' & Ht & Hlen).
    rewrite Hgen in Ht. now injection Ht as -> _.
  - intros k Hk. rewrite dict_lookup_set_other by assumption.
    unfold dict_setdefault. destruct (dict_lookup u (py "news")); [reflexivity|].
    now apply dict_lookup_set_other.
Qed.

Lemma for_each_total {A B} (f : A -> Run W B) (R : A -> B -> Prop) (xs : list A) :
  Forall (fun x => forall s, exists y s', f x s = (Ok y, s') /\ R x y) xs ->
  forall s, exists ys s', for_each f xs s = (Ok ys, s') /\ Forall2 R xs ys.
Proof.
  induction 1 as [|x xs Hx _ IH]; intros s; cbn [for_each].
  - exists [], s. split; [reflexivity | constructor].
  - destruct (Hx s) as (y & s1 & Hy & HR). destruct (IH s1) as (ys & s2 & Hys & HRs).
    exists (y :: ys), s2. split; [|now constructor].
    unfold bind at 1. rewrite Hy. unfold bind at 1. now rewrite Hys.
Qed.

(** With a credential and well-formed content lists the whole stage
    returns, every record enriched. *)
Lemma transform_total (settings : Settings) (users : list pydict) (s : state W)
      (c : pychar) (key : pystr) :
  gemini_api_key settings = Some (c :: key) ->
  forallb news_ok users = true ->
  exists users' s',
    transform_add_news_gemini settings users s = (Ok users', s')
    /\ Forall2 (enriched (icon_url settings)) users users'.
Proof.
  intros Hkey Hok. unfold transform_add_news_gemini. rewrite Hkey.
  apply for_each_total. apply Forall_forall. intros u Hu s0.
  apply add_news_enriched. rewrite forallb_forall in Hok. now apply Hok.
Qed.

End Enricher.

(** ** The report *)

Lemma py_or_snoc (l : list pyval) (x : pyval) :
  py_or (PList (l ++ [x])) (PList []) = PList (l ++ [x]).
Proof. now destruct l. Qed.

Lemma truthy_snoc (l : list pyval) (x : pyval) : truthy (PList (l ++ [x])) = true.
Proof. now destruct l. Qed.

Lemma any_last_snoc (l : list pyval) (x : pyval) : any_last (PList (l ++ [x])) = Ok x.
Proof.
  destruct l as [|y l]; [reflexivity|]. cbn [app any_last]. f_equal. apply last_last.
Qed.

Lemma news_item_descricao (id : Z) (icon msg : pystr) :
  any_get (news_item id icon msg) (py "descricao") (PStr []) = Ok (PStr msg).
Proof. reflexivity. Qed.

Lemma enriched_news (icon : pystr) (u u' : pydict) :
  enriched icon u u' ->
  exists id msg,
    dict_lookup u' (py "news")
    = Some (PList (content_items u ++ [news_item id icon msg])).
Proof.
  intros [(id & msg & Hitems & _) _]. exists id, msg.
  unfold content_items in Hitems at 1.
  destruct (dict_lookup u' (py "news")) as [[| | | | |l|]|];
    try (now apply app_cons_not_nil in Hitems).
  now rewrite Hitems.
Qed.

(** The row of an enriched record counts one item more than the record
    had, and shows the appended text. *)
Lemma report_row_enriched (icon : pystr) (u u' : pydict) :
  enriched icon u u' ->
  conta_ok u = true ->
  exists row,
    report_row_of u' = Ok row
    /\ qtd_news_total row = length (content_items u) + 1.
Proof.
  intros Henr Hconta. destruct (enriched_news Henr) as (id & msg & Hnews).
  destruct Henr as [_ Hother].
  assert (Hget : dict_get u' (py "news") (PList [])
                 = PList (content_items u ++ [news_item id icon msg]))
    by (unfold dict_get; now rewrite Hnews).
  unfold conta_ok in Hconta. unfold report_row_of. cbv zeta.
  replace (dict_get u' (py "conta") (PDict [])) with (dict_get u (py "conta") (PDict []))
    by (unfold dict_get; rewrite Hother; [reflexivity | discriminate]).
  destruct (py_or (dict_get u (py "conta") (PDict [])) (PDict []))
    as [| | | | | |conta]; try discriminate.
  rewrite Hget, py_or_snoc, truthy_snoc, any_last_snoc.
  cbn [rbind]. rewrite news_item_descricao.
  cbn [rbind any_get any_len clean_text_any].
  eexists. split; [reflexivity|]. cbn [qtd_news_total]. apply length_app.
Qed.

Lemma report_rows_enriched (icon : pystr) (users users' : list pydict) :
  Forall2 (enriched icon) users users' ->
  forallb conta_ok users = true ->
  exists rows,
    report_rows users' = Ok rows
    /\ Forall2 (fun u row => qtd_news_total row = length (content_items u) + 1)
         users rows.
Proof.
  unfold report_rows.
  induction 1 as [|u u' users users' Henr _ IH]; cbn [forallb rmap]; intros Hok.
  - exists []. split; [reflexivity | constructor].
  - apply andb_true_iff in Hok as [Hu Hrest].
    destruct (report_row_enriched Henr Hu) as (row & Hrow & Hqtd).
    destruct (IH Hrest) as (rows & Hrows & Hall).
    exists (row :: rows). rewrite Hrow, Hrows. split; [reflexivity | now constructor].
Qed.

Lemma record_ok_split {RT : Runtime} (users : list pydict) :
  forallb record_ok users = true ->
  forallb news_ok users = true /\ forallb conta_ok users = true.
Proof.
  induction users as [|u users IH]; cbn [forallb]; [now split|].
  unfold record_ok at 1. intros H.
  apply andb_true_iff in H as [Hu Hrest]. apply andb_true_iff in Hu as [Hn Hc].
  destruct (IH Hrest) as [IHn IHc]. now rewrite Hn, Hc, IHn, IHc.
Qed.

(** C2 (as amended): with a generation credential configured, the
    generating stage cannot fail outward on a batch of records whose
    content list is absent or a list of content items: whatever the
    generation service returns or raises, every record is processed in
    order and leaves the stage with one more content item.  With a
    missing or empty credential the stage raises [ValueError] before it
    processes any record. *)
Theorem generating_stage_returns_with_credential
  {RT : Runtime} {W : Type} {WD : World W}
  (settings : Settings) (users : list pydict) (s : state W) :
  forallb news_ok users = true ->
  match gemini_api_key settings with
  | Some (_ :: _) =>
      exists users' s',
        transform_add_news_gemini settings users s = (Ok users', s')
        /\ length users' = length users
        /\ Forall2 (enriched (icon_url settings)) users users'
  | _ =>
      transform_add_news_gemini settings users s
      = (Raise (Exc ValueError
           (py "GEMINI_API_KEY não encontrada. Configure no .env ou variável de ambiente.")),
         s)
  end.
Proof.
  intros Hok. destruct (gemini_api_key settings) as [[|c key]|] eqn:Hkey;
    try (unfold transform_add_news_gemini; now rewrite Hkey).
  destruct (transform_total settings users s Hkey Hok) as (users' & s' & Hrun & Henr).
  exists users', s'. split; [exact Hrun|]. split; [|exact Henr].
  symmetry. exact (Forall2_length Henr).
Qed.

(** Two records, every call of the service failing in transport. *)
Lemma generating_stage_witness :
  exists users' s',
    @transform_add_news_gemini Scripted.runtime _
      (Scripted.world_of (Scripted.generation_fails Scripted.connection_error))
      Scripted.settings [Scripted.ana; Scripted.bia] Scripted.start = (Ok users', s')
    /\ length users' = 2
    /\ Forall2 (enriched (icon_url Scripted.settings)) [Scripted.ana; Scripted.bia] users'.
Proof.
  apply (@generating_stage_returns_with_credential Scripted.runtime _
           (Scripted.world_of (Scripted.generation_fails Scripted.connection_error))
           Scripted.settings [Scripted.ana; Scripted.bia] Scripted.start).
  reflexivity.
Defined.

(** C2 (as stated) fails: without a credential the stage raises
    [ValueError] to [main] before it processes any record or calls the
    service, and the run ends there. *)
Lemma generating_stage_raises_without_credential :
  @transform_add_news_gemini Scripted.runtime _ (Scripted.world_of Scripted.happy)
    Scripted.settings_without_key [Scripted.ana; Scripted.bia] Scripted.start
  = (Raise (Exc ValueError
       (py "GEMINI_API_KEY não encontrada. Configure no .env ou variável de ambiente.")),
     Scripted.start)
  /\ fst (Scripted.run_main Scripted.happy Scripted.settings_without_key)
     = Raise (Exc ValueError
         (py "GEMINI_API_KEY não encontrada. Configure no .env ou variável de ambiente.")).
Proof. split; vm_compute; reflexivity. Qed.

(** C6: a batch of N fetched records (content list absent or a list of
    content items, account absent or a mapping), enriched and then handed
    to the report writer, gives a report of exactly N rows, and the
    [qtd_news_total] of each row is the record's original number of
    content items plus 1. *)
Theorem report_counts_one_more_item_per_record
  {RT : Runtime} {W : Type} {WD : World W}
  (settings : Settings) (users : list pydict) (s : state W)
  (c : pychar) (key : pystr) :
  gemini_api_key settings = Some (c :: key) ->
  forallb record_ok users = true ->
  exists users' s' rows,
    transform_add_news_gemini settings users s = (Ok users', s')
    /\ report_rows users' = Ok rows
    /\ save_report_csv users' (report_path settings) s'
       = (call (to_csv (report_path settings) rows) ;;;
          info (py "Relatório gerado para Excel: " ++ report_path settings)) s'
    /\ length rows = length users
    /\ Forall2 (fun u row => qtd_news_total row = length (content_items u) + 1)
         users rows.
Proof.
  intros Hkey Hok. apply record_ok_split in Hok as [Hnews Hconta].
  destruct (transform_total settings users s Hkey Hnews) as (users' & s' & Hrun & Henr).
  destruct (report_rows_enriched Henr Hconta) as (rows & Hrows & Hqtd).
  exists users', s', rows. repeat apply conj; try assumption.
  - unfold save_report_csv. unfold bind at 1 3. unfold lift. now rewrite Hrows.
  - symmetry. exact (Forall2_length Hqtd).
Qed.

(** Ana has three content items and Bia none: the rows count 4 and 1. *)
Lemma report_counts_witness :
  exists users' s' rows,
    @transform_add_news_gemini Scripted.runtime _ (Scripted.world_of Scripted.happy)
      Scripted.settings [Scripted.ana; Scripted.bia] Scripted.start = (Ok users', s')
    /\ report_rows users' = Ok rows
    /\ map qtd_news_total rows = [4; 1].
Proof.
  destruct (@report_counts_one_more_item_per_record Scripted.runtime _
              (Scripted.world_of Scripted.happy)
              Scripted.settings [Scripted.ana; Scripted.bia] Scripted.start
              107%N (py "ey") eq_refl eq_refl)
    as (users' & s' & rows & Hrun & Hrows & _ & _ & Hqtd).
  exists users', s', rows. split; [exact Hrun|]. split; [exact Hrows|].
  inversion Hqtd as [|u1 r1 us1 rs1 H1 Hq1]; subst.
  inversion Hq1 as [|u2 r2 us2 rs2 H2 Hq2]; subst.
  inversion Hq2; subst. cbn [map]. rewrite H1, H2. reflexivity.
Defined.

(** C5 (as amended): when the generation-service call fails with any
    error, the text the content generator returns, which is the text of
    the content item appended to the record, is the fallback message
    personalized with the record's display name, normalized by
    [clean_text] and then truncated to 100 characters. *)
Theorem generation_error_gives_cleaned_fallback
  {RT : Runtime} {W : Type} {WD : World W}
  (settings : Settings) (user : pydict) (s : state W) (e : pyexc) (w : W) :
  let nome := dict_get user (py "nome") (PStr (py "Cliente")) in
  let text := firstn 100 (clean_text (fallback_news nome)) in
  generate_content (gemini_model settings) (news_prompt nome) (world s) = (Raise e, w) ->
  (exists line,
      generate_ai_news_gemini (gemini_model settings) user s
      = (Ok text, logged (with_world s w) line))
  /\ (news_ok user = true ->
      exists u' id s',
        add_news settings user s = (Ok u', s')
        /\ content_items u'
           = content_items user ++ [news_item id (icon_url settings) text]).
Proof.
  intros nome text Hfail.
  pose proof (generate_returns (gemini_model settings) user s) as Hgen.
  cbv zeta in Hgen. fold nome in Hgen. rewrite Hfail in Hgen. fold text in Hgen.
  split; [exact Hgen|]. intros Hok.
  destruct (add_news_ok settings user s Hok) as (msg & id & s1 & s2 & Hmsg & Hadd).
  destruct Hgen as [line Hgen]. rewrite Hgen in Hmsg. injection Hmsg as <- _.
  do 3 eexists. split; [exact Hadd | apply content_items_set].
Qed.

(** The service answers 503. *)
Lemma generation_error_witness :
  exists line,
    @generate_ai_news_gemini Scripted.runtime _
      (Scripted.world_of
         (Scripted.generation_fails (APIError (PInt 503) (PStr (py "overloaded")))))
      (py "gemini-2.5-flash") Scripted.ana Scripted.start
    = (Ok (py "Ana, investir com consistência fortalece seu futuro financeiro."),
       logged (with_world Scripted.start
                 [Scripted.GENERATE (py "gemini-2.5-flash")
                    (@news_prompt Scripted.runtime (PStr (py "Ana")))]) line).
Proof.
  exact (proj1 (@generation_error_gives_cleaned_fallback Scripted.runtime _
                  (Scripted.world_of
                     (Scripted.generation_fails
                        (APIError (PInt 503) (PStr (py "overloaded")))))
                  Scripted.settings Scripted.ana Scripted.start _ _ eq_refl)).
Defined.

(** C5 (as stated) fails: for a display name with two spaces in it the
    text returned after a service error is not the truncated fallback
    for that name, because [clean_text] has collapsed the spaces. *)
Lemma generation_error_text_is_not_the_plain_fallback :
  fst (@generate_ai_news_gemini Scripted.runtime _
         (Scripted.world_of
            (Scripted.generation_fails (APIError (PInt 503) (PStr (py "overloaded")))))
         (py "gemini-2.5-flash") [(py "nome", PStr (py "Ana  Lima"))] Scripted.start)
  = Ok (py "Ana Lima, investir com consistência fortalece seu futuro financeiro.")
  /\ firstn 100 (@fallback_news Scripted.runtime (PStr (py "Ana  Lima")))
     = py "Ana  Lima, investir com consistência fortalece seu futuro financeiro."
  /\ fst (@generate_ai_news_gemini Scripted.runtime _
            (Scripted.world_of
               (Scripted.generation_fails (APIError (PInt 503) (PStr (py "overloaded")))))
            (py "gemini-2.5-flash") [(py "nome", PStr (py "Ana  Lima"))] Scripted.start)
     <> Ok (firstn 100 (@fallback_news Scripted.runtime (PStr (py "Ana  Lima")))).
Proof. split; [|split]; vm_compute; [reflexivity | reflexivity | discriminate]. Qed.

(** ** The record updater *)

(** C8: when the service answers the update, [update_user] returns [True]
    for status 200; for any other status it prints one error line with
    the status and the first 200 characters of the body and returns
    [False].  It does not raise in either case. *)
Theorem update_user_true_on_200_false_otherwise
  {RT : Runtime} {W : Type} {WD : World W}
  (api : pystr) (user : pydict) (timeout : Z) (s : state W) (resp : response) (w : W) :
  let url := user_url api (dict_get user (py "id") PNone) in
  requests_put url user timeout (world s) = (Ok resp, w) ->
  update_user api user timeout s
  = if (status_code resp =? 200)%Z
    then (Ok true, with_world s w)
    else (Ok false,
          logged (with_world s w)
            (Log ERROR (py "PUT " ++ url ++ py " -> " ++ str_of_int (status_code resp)
                        ++ py " | " ++ firstn 200 (text resp)))).
Proof.
  intros url Hput. unfold update_user. fold url.
  unfold bind at 1. unfold call. rewrite Hput.
  destruct (status_code resp =? 200)%Z; reflexivity.
Qed.

(** The service answers the update with a 500. *)
Lemma update_user_witness :
  @update_user Scripted.runtime _ (Scripted.world_of Scripted.put_rejected)
    (py "https://api.test") Scripted.bia 20 Scripted.start
  = (Ok false,
     {| world := [Scripted.PUT (py "https://api.test/usuario/2") Scripted.bia];
        console := [Log ERROR
          (py "PUT https://api.test/usuario/2 -> 500 | Internal Server Error")] |}).
Proof.
  exact (@update_user_true_on_200_false_otherwise Scripted.runtime _
           (Scripted.world_of Scripted.put_rejected)
           (py "https://api.test") Scripted.bia 20 Scripted.start _ _ eq_refl).
Defined.

Example update_user_200 :
  fst (@update_user Scripted.runtime _ (Scripted.world_of Scripted.happy)
         (py "https://api.test") Scripted.bia 20 Scripted.start) = Ok true.
Proof. reflexivity. Qed.

(** ** The loops of [main] *)

Section Loops.
Context {RT : Runtime} {W : Type} {WD : World W}.

Lemma get_user_raises (api : pystr) (uid timeout : Z) (s : state W) e w :
  requests_get (user_url api (PInt uid)) timeout (world s) = (Raise e, w) ->
  get_user api uid timeout s = (Raise e, with_world s w).
Proof.
  intros Hget. unfold get_user. unfold bind at 1. unfold call. now rewrite Hget.
Qed.

Lemma get_user_200 (api : pystr) (uid timeout : Z) (s : state W) resp w :
  requests_get (user_url api (PInt uid)) timeout (world s) = (Ok resp, w) ->
  status_code resp = 200%Z ->
  get_user api uid timeout s = (json resp, with_world s w).
Proof.
  intros Hget Hst. unfold get_user. unfold bind at 1. unfold call.
  now rewrite Hget, Hst.
Qed.

(** Any other status is logged, a 404 as a warning, and gives [None]. *)
Lemma get_user_not_200 (api : pystr) (uid timeout : Z) (s : state W) resp w :
  requests_get (user_url api (PInt uid)) timeout (world s) = (Ok resp, w) ->
  status_code resp <> 200%Z ->
  exists msg,
    get_user api uid timeout s
    = (Ok None,
       logged (with_world s w)
         (Log (if (status_code resp =? 404)%Z then WARN else ERROR) msg)).
Proof.
  intros Hget Hst. unfold get_user. unfold bind at 1. unfold call. rewrite Hget.
  apply Z.eqb_neq in Hst. rewrite Hst.
  destruct (status_code resp =? 404)%Z; eexists; reflexivity.
Qed.

Lemma update_user_raises (api : pystr) (u : pydict) (timeout : Z) (s : state W) e w :
  requests_put (user_url api (dict_get u (py "id") PNone)) u timeout (world s)
  = (Raise e, w) ->
  update_user api u timeout s = (Raise e, with_world s w).
Proof.
  intros Hput. unfold update_user. unfold bind at 1. unfold call. now rewrite Hput.
Qed.

Lemma update_user_not_200 (api : pystr) (u : pydict) (timeout : Z) (s : state W) resp w :
  requests_put (user_url api (dict_get u (py "id") PNone)) u timeout (world s)
  = (Ok resp, w) ->
  status_code resp <> 200%Z ->
  exists msg,
    update_user api u timeout s = (Ok false, logged (with_world s w) (Log ERROR msg)).
Proof.
  intros Hput Hst. unfold update_user. unfold bind at 1. unfold call. rewrite Hput.
  apply Z.eqb_neq in Hst. rewrite Hst. eexists. reflexivity.
Qed.

Lemma fetch_users_step (settings : Settings) (uid : Z) (rest : list Z)
      (batch : list pydict) (s : state W) :
  fetch_users settings (uid :: rest) batch s
  = match get_user (api_url settings) uid (timeout_sec settings) s with
    | (Ok (Some d), s') =>
        fetch_users settings rest (match d with [] => batch | _ :: _ => batch ++ [d] end) s'
    | (Ok None, s') => fetch_users settings rest batch s'
    | (Raise e, s') => (Raise e, s')
    end.
Proof.
  cbn [fetch_users]. unfold bind.
  destruct (get_user _ _ _ s) as [[[[|kv d]|]|e] s']; reflexivity.
Qed.

Lemma update_users_step (settings : Settings) (u : pydict) (rest : list pydict)
      (n : Z) (s : state W) :
  update_users settings (u :: rest) n s
  = match update_user (api_url settings) u (timeout_sec settings) s with
    | (Ok b, s') => update_users settings rest (if b then n + 1 else n)%Z s'
    | (Raise e, s') => (Raise e, s')
    end.
Proof. reflexivity. Qed.

End Loops.

Section UntypedLoop.
Context {RT : Runtime} {W : Type} {WD : Untyped.World W}.

Lemma untyped_get_user_200 (api : pystr) (uid timeout : Z) (s : state W) resp w :
  Untyped.requests_get (user_url api (PInt uid)) timeout (world s) = (Ok resp, w) ->
  Untyped.status_code resp = 200%Z ->
  Untyped.get_user api uid timeout s = (Untyped.json resp, with_world s w).
Proof.
  intros Hget Hst. unfold Untyped.get_user. unfold bind at 1. unfold call.
  now rewrite Hget, Hst.
Qed.

Lemma untyped_get_user_404 (api : pystr) (uid timeout : Z) (s : state W) resp w :
  Untyped.requests_get (user_url api (PInt uid)) timeout (world s) = (Ok resp, w) ->
  Untyped.status_code resp = 404%Z ->
  exists msg,
    Untyped.get_user api uid timeout s
    = (Ok PNone, logged (with_world s w) (Log WARN msg)).
Proof.
  intros Hget Hst. unfold Untyped.get_user. unfold bind at 1. unfold call.
  rewrite Hget, Hst. eexists. reflexivity.
Qed.

Lemma untyped_fetch_users_step (settings : Settings) (uid : Z) (rest : list Z)
      (batch : list pyval) (s : state W) :
  Untyped.fetch_users settings (uid :: rest) batch s
  = match Untyped.get_user (api_url settings) uid (timeout_sec settings) s with
    | (Ok u, s') =>
        Untyped.fetch_users settings rest (if truthy u then batch ++ [u] else batch) s'
    | (Raise e, s') => (Raise e, s')
    end.
Proof.
  cbn [Untyped.fetch_users]. unfold bind.
  destruct (Untyped.get_user _ _ _ s) as [[u|e] s']; [|reflexivity].
  now destruct (truthy u).
Qed.

(** Every value that the fetch loop adds to the batch is truthy. *)
Lemma untyped_fetch_users_truthy (settings : Settings) (user_ids : list Z) :
  forall (batch : list pyval) (s : state W) users s',
    Forall (fun u => truthy u = true) batch ->
    Untyped.fetch_users settings user_ids batch s = (Ok users, s') ->
    Forall (fun u => truthy u = true) users.
Proof.
  induction user_ids as [|uid rest IH]; intros batch s users s' Hbatch.
  - cbn [Untyped.fetch_users]. unfold ret. now intros [= <- _].
  - rewrite untyped_fetch_users_step.
    destruct (Untyped.get_user _ _ _ s) as [[u|e] s1]; [|discriminate].
    apply IH. destruct (truthy u) eqn:Hu; [|assumption].
    apply Forall_app. split; [assumption|]. now constructor.
Qed.

End UntypedLoop.

(** Where every body keeps to the annotation of [get_user], the untyped
    loop builds the batch of the annotated loop. *)
Lemma untyped_fetch_users_agrees
  {RT : Runtime} {W : Type} {WD : World W}
  (settings : Settings) (user_ids : list Z) :
  forall (batch : list pydict) (s : state W),
    @Untyped.fetch_users RT W (untyped_world WD) settings user_ids (map PDict batch) s
    = match fetch_users settings user_ids batch s with
      | (Ok users, s') => (Ok (map PDict users), s')
      | (Raise e, s') => (Raise e, s')
      end.
Proof.
  induction user_ids as [|uid rest IH]; intros batch s; [reflexivity|].
  rewrite untyped_fetch_users_step, fetch_users_step.
  assert (Hu : @Untyped.get_user RT W (untyped_world WD)
                 (api_url settings) uid (timeout_sec settings) s
               = match get_user (api_url settings) uid (timeout_sec settings) s with
                 | (r, s') => (untyped_json r, s')
                 end).
  { unfold Untyped.get_user, get_user, bind, call.
    cbn [Untyped.requests_get untyped_world].
    destruct (requests_get _ _ (world s)) as [[resp|e] w]; [|reflexivity].
    cbn [Untyped.status_code Untyped.json Untyped.text untyped_response].
    destruct (status_code resp =? 200)%Z; [reflexivity|].
    destruct (status_code resp =? 404)%Z; reflexivity. }
  rewrite Hu.
  destruct (get_user _ _ _ s) as [[[[|kv d]|]|e] s1]; cbn [untyped_json truthy];
    try apply IH; try reflexivity.
  change (map PDict batch ++ [PDict (kv :: d)]) with (map PDict batch ++ map PDict [kv :: d]).
  rewrite <- map_app. apply IH.
Qed.

(** C9 (as amended): the fetch loop adds a fetched value to the batch
    only when it is truthy, so that every element of the batch is truthy
    and every mapping in it is non-empty; a lookup answered 200 with a
    falsy body (the empty object, [null], [[]], [""], [0], [false])
    leaves the batch as a 404 does, and the loop goes on with the
    remaining identifiers.  The body is not checked to be a mapping: a
    truthy body of any other JSON type is added to the batch too. *)
Theorem batch_holds_only_truthy_values
  {RT : Runtime} {W : Type} {WD : Untyped.World W} (settings : Settings) :
  (forall user_ids (s : state W) users s',
      Untyped.fetch_users settings user_ids [] s = (Ok users, s') ->
      Forall (fun u => truthy u = true /\ (forall d, u = PDict d -> d <> [])) users)
  /\ (forall uid rest batch (s : state W) resp w,
        Untyped.requests_get (user_url (api_url settings) (PInt uid))
          (timeout_sec settings) (world s) = (Ok resp, w) ->
        (Untyped.status_code resp = 200%Z ->
         forall v, Untyped.json resp = Ok v ->
           Untyped.fetch_users settings (uid :: rest) batch s
           = Untyped.fetch_users settings rest
               (if truthy v then batch ++ [v] else batch) (with_world s w))
        /\ (Untyped.status_code resp = 404%Z ->
            exists msg,
              Untyped.fetch_users settings (uid :: rest) batch s
              = Untyped.fetch_users settings rest batch
                  (logged (with_world s w) (Log WARN msg)))).
Proof.
  split.
  - intros user_ids s users s' Hrun.
    assert (Ht : Forall (fun u => truthy u = true) users)
      by (eapply untyped_fetch_users_truthy; [constructor | exact Hrun]).
    eapply Forall_impl; [|exact Ht].
    intros u Hu. split; [exact Hu|]. intros d -> ->. discriminate.
  - intros uid rest batch s resp w Hget. split.
    + intros Hst v Hjson. rewrite untyped_fetch_users_step.
      now rewrite (untyped_get_user_200 _ _ _ _ Hget Hst), Hjson.
    + intros Hst. rewrite untyped_fetch_users_step.
      destruct (untyped_get_user_404 _ _ _ _ Hget Hst) as [msg Hmsg].
      rewrite Hmsg. now exists msg.
Qed.

(** Of the identifiers 1 to 8 only 2 has a truthy body: the six falsy
    bodies and the 404 leave nothing in the batch.  The empty object
    answered for identifier 1 and the 404 answered for identifier 8 both
    leave the batch as it was. *)
Lemma batch_truthy_witness :
  fst (ScriptedUntyped.run_fetch ScriptedUntyped.falsy_bodies [1; 2; 3; 4; 5; 6; 7; 8]%Z)
  = Ok [PDict Scripted.bia]
  /\ Forall (fun u => truthy u = true /\ (forall d, u = PDict d -> d <> []))
       [PDict Scripted.bia]
  /\ @Untyped.fetch_users Scripted.runtime _
       (ScriptedUntyped.world_of ScriptedUntyped.falsy_bodies)
       Scripted.settings [1; 2]%Z [PDict Scripted.ana] Scripted.start
     = @Untyped.fetch_users Scripted.runtime _
         (ScriptedUntyped.world_of ScriptedUntyped.falsy_bodies)
         Scripted.settings [2]%Z [PDict Scripted.ana]
         (with_world Scripted.start [Scripted.GET (py "https://api.test/usuario/1")])
  /\ exists msg,
       @Untyped.fetch_users Scripted.runtime _
         (ScriptedUntyped.world_of ScriptedUntyped.falsy_bodies)
         Scripted.settings [8; 2]%Z [PDict Scripted.ana] Scripted.start
       = @Untyped.fetch_users Scripted.runtime _
           (ScriptedUntyped.world_of ScriptedUntyped.falsy_bodies)
           Scripted.settings [2]%Z [PDict Scripted.ana]
           (logged
              (with_world Scripted.start
                 [Scripted.GET (py "https://api.test/usuario/8")])
              (Log WARN msg)).
Proof.
  pose proof (@batch_holds_only_truthy_values Scripted.runtime _
                (ScriptedUntyped.world_of ScriptedUntyped.falsy_bodies)
                Scripted.settings) as [Hbatch Hstep].
  split; [reflexivity|]. split; [|split].
  - apply (Hbatch [1; 2; 3; 4; 5; 6; 7; 8]%Z Scripted.start [PDict Scripted.bia]
             (snd (ScriptedUntyped.run_fetch ScriptedUntyped.falsy_bodies
                     [1; 2; 3; 4; 5; 6; 7; 8]%Z))).
    reflexivity.
  - refine (proj1 (Hstep 1%Z [2]%Z [PDict Scripted.ana] Scripted.start _ _ eq_refl)
              eq_refl (PDict []) eq_refl).
  - refine (proj2 (Hstep 8%Z [2]%Z [PDict Scripted.ana] Scripted.start _ _ eq_refl)
              eq_refl).
Defined.

(** C9 (as stated) fails: a lookup answered 200 with the body [[1]]
    puts the list [[1]] in the batch, which is truthy and no mapping. *)
Lemma batch_holds_a_value_that_is_no_mapping :
  fst (ScriptedUntyped.run_fetch ScriptedUntyped.list_body [1; 2]%Z)
  = Ok [PList [PInt 1]; PDict Scripted.bia]
  /\ truthy (PList [PInt 1]) = true
  /\ is_mapping (PList [PInt 1]) = false
  /\ ~ (forall u,
          In u [PList [PInt 1]; PDict Scripted.bia] ->
          exists d, u = PDict d /\ d <> []).
Proof.
  split; [reflexivity|]. split; [reflexivity|]. split; [reflexivity|].
  intros H. destruct (H (PList [PInt 1])) as (d & Hd & _); [now left | discriminate].
Qed.

(** ** Transport failures *)

Section Transport.
Context {RT : Runtime} {W : Type} {WD : World W}.

(** [main] has no handler around the fetch loop: what the loop raises,
    [main] raises. *)
Lemma main_raises_what_fetch_raises (settings : Settings) (s : state W)
      user_ids s1 e s2 :
  let s0 :=
    logged (logged (logged s (Log INFO (py "API_URL=" ++ api_url settings)))
              (Log INFO (py "CSV_PATH=" ++ csv_path settings)))
      (Log INFO (py "GEMINI_MODEL=" ++ gemini_model settings)) in
  read_user_ids (csv_path settings) s0 = (Ok user_ids, s1) ->
  fetch_users settings user_ids []
    (logged (logged s1 (Log INFO (py "IDs do CSV: " ++ str_of_ints user_ids))) Separator)
  = (Raise e, s2) ->
  main settings s = (Raise e, s2).
Proof.
  intros s0 Hread Hfetch. unfold main.
  unfold bind at 1. unfold info at 1, print.
  unfold bind at 1. unfold info at 1, print.
  unfold bind at 1. unfold info at 1, print.
  unfold bind at 1. fold s0. rewrite Hread.
  unfold bind at 1. unfold info at 1, print.
  unfold bind at 1. unfold separator at 1, print.
  unfold bind at 1. now rewrite Hfetch.
Qed.

(** Nor around the update loop. *)
Lemma main_raises_what_update_raises (settings : Settings) (s : state W)
      user_ids s1 u0 users s2 table users' s3 s4 e s5 :
  let s0 :=
    logged (logged (logged s (Log INFO (py "API_URL=" ++ api_url settings)))
              (Log INFO (py "CSV_PATH=" ++ csv_path settings)))
      (Log INFO (py "GEMINI_MODEL=" ++ gemini_model settings)) in
  read_user_ids (csv_path settings) s0 = (Ok user_ids, s1) ->
  fetch_users settings user_ids []
    (logged (logged s1 (Log INFO (py "IDs do CSV: " ++ str_of_ints user_ids))) Separator)
  = (Ok (u0 :: users), s2) ->
  print_users_table (u0 :: users) (wrap_news_width settings) = Ok table ->
  transform_add_news_gemini settings (u0 :: users)
    (logged (logged (logged s2
       (Log INFO (py "Usuários carregados da API (resumo):" ++ [10%N])))
       (Table table)) Separator)
  = (Ok users', s3) ->
  save_report_csv users' (report_path settings) (logged s3 Separator) = (Ok tt, s4) ->
  update_users settings users' 0%Z s4 = (Raise e, s5) ->
  main settings s = (Raise e, s5).
Proof.
  intros s0 Hread Hfetch Htable Htrans Hsave Hupd. unfold main.
  unfold bind at 1. unfold info at 1, print.
  unfold bind at 1. unfold info at 1, print.
  unfold bind at 1. unfold info at 1, print.
  unfold bind at 1. fold s0. rewrite Hread.
  unfold bind at 1. unfold info at 1, print.
  unfold bind at 1. unfold separator at 1, print.
  unfold bind at 1. rewrite Hfetch.
  unfold bind at 1. unfold info at 1, print.
  unfold bind at 1. unfold lift. rewrite Htable.
  unfold bind at 1.
  unfold bind at 1. unfold separator at 1, print.
  unfold bind at 1. rewrite Htrans.
  unfold bind at 1. unfold separator at 1, print.
  unfold bind at 1. rewrite Hsave.
  unfold bind at 1. now rewrite Hupd.
Qed.

End Transport.

(** C1 (as amended): a per-record remote call that is answered with a
    failure status is recovered locally: the fetch loop logs it, leaves
    the record out of the batch and goes on with the remaining
    identifiers; the update loop logs it, does not count it as a success
    and goes on with the remaining records.  A transport failure (the
    call raises) is not caught: the fetch loop and the update loop raise
    it at once, without processing what remains, and [main] raises what
    its fetch loop or its update loop raises. *)
Theorem status_failures_recovered_transport_failures_raised
  {RT : Runtime} {W : Type} {WD : World W} (settings : Settings) :
  (forall uid rest batch (s : state W) r w,
      requests_get (user_url (api_url settings) (PInt uid)) (timeout_sec settings)
        (world s) = (r, w) ->
      match r with
      | Raise e =>
          fetch_users settings (uid :: rest) batch s = (Raise e, with_world s w)
      | Ok resp =>
          status_code resp <> 200%Z ->
          exists msg,
            fetch_users settings (uid :: rest) batch s
            = fetch_users settings rest batch
                (logged (with_world s w)
                   (Log (if (status_code resp =? 404)%Z then WARN else ERROR) msg))
      end)
  /\ (forall u rest ok_count (s : state W) r w,
        requests_put (user_url (api_url settings) (dict_get u (py "id") PNone)) u
          (timeout_sec settings) (world s) = (r, w) ->
        match r with
        | Raise e =>
            update_users settings (u :: rest) ok_count s = (Raise e, with_world s w)
        | Ok resp =>
            status_code resp <> 200%Z ->
            exists msg,
              update_users settings (u :: rest) ok_count s
              = update_users settings rest ok_count
                  (logged (with_world s w) (Log ERROR msg))
        end)
  /\ (forall (s : state W) user_ids s1 e s2,
        read_user_ids (csv_path settings)
          (logged (logged (logged s (Log INFO (py "API_URL=" ++ api_url settings)))
                     (Log INFO (py "CSV_PATH=" ++ csv_path settings)))
             (Log INFO (py "GEMINI_MODEL=" ++ gemini_model settings)))
        = (Ok user_ids, s1) ->
        fetch_users settings user_ids []
          (logged (logged s1 (Log INFO (py "IDs do CSV: " ++ str_of_ints user_ids)))
             Separator)
        = (Raise e, s2) ->
        main settings s = (Raise e, s2))
  /\ (forall (s : state W) user_ids s1 u0 users s2 table users' s3 s4 e s5,
        read_user_ids (csv_path settings)
          (logged (logged (logged s (Log INFO (py "API_URL=" ++ api_url settings)))
                     (Log INFO (py "CSV_PATH=" ++ csv_path settings)))
             (Log INFO (py "GEMINI_MODEL=" ++ gemini_model settings)))
        = (Ok user_ids, s1) ->
        fetch_users settings user_ids []
          (logged (logged s1 (Log INFO (py "IDs do CSV: " ++ str_of_ints user_ids)))
             Separator)
        = (Ok (u0 :: users), s2) ->
        print_users_table (u0 :: users) (wrap_news_width settings) = Ok table ->
        transform_add_news_gemini settings (u0 :: users)
          (logged (logged (logged s2
             (Log INFO (py "Usuários carregados da API (resumo):" ++ [10%N])))
             (Table table)) Separator)
        = (Ok users', s3) ->
        save_report_csv users' (report_path settings) (logged s3 Separator)
        = (Ok tt, s4) ->
        update_users settings users' 0%Z s4 = (Raise e, s5) ->
        main settings s = (Raise e, s5)).
Proof.
  split; [|split; [|split]].
  - intros uid rest batch s [resp|e] w Hget; rewrite fetch_users_step.
    + intros Hst. destruct (get_user_not_200 _ _ _ _ Hget Hst) as [msg Hmsg].
      rewrite Hmsg. now exists msg.
    + now rewrite (get_user_raises _ _ _ _ Hget).
  - intros u rest n s [resp|e] w Hput; rewrite update_users_step.
    + intros Hst. destruct (update_user_not_200 _ _ _ _ Hput Hst) as [msg Hmsg].
      rewrite Hmsg. now exists msg.
    + now rewrite (update_user_raises _ _ _ _ Hput).
  - intros s user_ids s1 e s2. apply main_raises_what_fetch_raises.
  - intros s user_ids s1 u0 users s2 table users' s3 s4 e s5.
    apply main_raises_what_update_raises.
Qed.

(** The lookup of identifier 1 fails: identifier 2 is not looked up. *)
Lemma transport_failure_witness :
  @fetch_users Scripted.runtime _ (Scripted.world_of Scripted.get_fails)
    Scripted.settings [1; 2]%Z [] Scripted.start
  = (Raise Scripted.connection_error,
     with_world Scripted.start [Scripted.GET (py "https://api.test/usuario/1")]).
Proof.
  exact (proj1 (@status_failures_recovered_transport_failures_raised
                  Scripted.runtime _ (Scripted.world_of Scripted.get_fails)
                  Scripted.settings)
           1%Z [2%Z] [] Scripted.start _ _ eq_refl).
Defined.

(** C1 (as stated) fails: a transport failure on the lookup of the first
    identifier ends the run with that exception, the other identifiers
    never looked up; a transport failure on the first update ends the run
    as well, the second record never updated. *)
Lemma transport_failure_aborts_run :
  fst (Scripted.run_main Scripted.get_fails Scripted.settings)
  = Raise Scripted.connection_error
  /\ Scripted.urls_get (world (snd (Scripted.run_main Scripted.get_fails Scripted.settings)))
     = [py "https://api.test/usuario/1"]
  /\ fst (Scripted.run_main Scripted.put_fails Scripted.settings)
     = Raise Scripted.connection_error
  /\ Scripted.urls_put (world (snd (Scripted.run_main Scripted.put_fails Scripted.settings)))
     = [py "https://api.test/usuario/1"].
Proof. repeat apply conj; vm_compute; reflexivity. Qed.

(** ** The identity source reader *)

Lemma rmap_Forall2 {A B} (f : A -> result B) (l : list A) (l' : list B) :
  Forall2 (fun a b => f a = Ok b) l l' -> rmap f l = Ok l'.
Proof.
  induction 1 as [|a b l l' Hab _ IH]; [reflexivity|].
  cbn [rmap]. rewrite Hab, IH. reflexivity.
Qed.

(** C7 (as amended): for an identity file that has one of the two
    recognized columns ([user_id] first) and at least one non-missing
    value in it, [read_user_ids] returns exactly the non-missing values
    of that column converted to integers, in row order, duplicates
    kept; when the column has no non-missing value it raises
    [ValueError]. *)
Theorem read_user_ids_returns_non_missing_values_in_order
  {RT : Runtime} {W : Type} {WD : World W}
  (path : pystr) (s : state W) (df : dataframe) (w : W) (col : pystr) (ids : list Z) :
  read_csv path (world s) = (Ok df, w) ->
  id_column df = Some col ->
  Forall2 (fun cell z => astype_int cell = Ok z)
    (filter (fun cell => negb (isna cell)) (column df col)) ids ->
  read_user_ids path s
  = (match ids with
     | [] => Raise (Exc ValueError (py "Nenhum ID encontrado no CSV."))
     | _ :: _ => Ok ids
     end, with_world s w).
Proof.
  intros Hread Hcol Hids. unfold read_user_ids.
  unfold bind at 1. unfold call. rewrite Hread, Hcol.
  assert (Hmap : rmap astype_int (dropna (column df col)) = Ok ids)
    by (apply rmap_Forall2; exact Hids).
  unfold bind, lift. rewrite Hmap. now destruct ids.
Qed.

(** The column [3.0, NaN, 1.0, 3.0] gives [3, 1, 3]. *)
Lemma read_user_ids_witness :
  @read_user_ids Scripted.runtime _ (Scripted.world_of Scripted.csv_with_gaps)
    (py "data/users_ids.csv") Scripted.start
  = (Ok [3; 1; 3]%Z,
     with_world Scripted.start [Scripted.READ_CSV (py "data/users_ids.csv")]).
Proof.
  apply (@read_user_ids_returns_non_missing_values_in_order Scripted.runtime _
           (Scripted.world_of Scripted.csv_with_gaps)
           (py "data/users_ids.csv") Scripted.start _ _ (py "user_id") [3; 1; 3]%Z
           eq_refl eq_refl).
  repeat constructor.
Defined.

(** C7 (as stated) fails: on a file whose identifier column holds no
    value [read_user_ids] does not return the empty sequence of its
    non-missing values, it raises [ValueError]. *)
Lemma read_user_ids_raises_on_empty_column :
  fst (@read_user_ids Scripted.runtime _ (Scripted.world_of Scripted.no_ids)
         (py "data/users_ids.csv") Scripted.start)
  = Raise (Exc ValueError (py "Nenhum ID encontrado no CSV."))
  /\ filter (fun cell => negb (isna cell))
       (column [(py "user_id", [PFloat S754_nan; PFloat S754_nan]);
                (py "nome", [PStr (py "Ana"); PStr (py "Bia")])] (py "user_id"))
     = [].
Proof. split; reflexivity. Qed.

(* ================================================================== *)
(** * Further properties of the code *)
(* ================================================================== *)

(** ** [clean_text] *)

Section CleanTextFacts.

Lemma collapsed_spaces (t : pystr) (b : bool) :
  collapsed b t -> forall c, In c t -> is_space c = true -> c = SPACE.
Proof.
  revert b. induction t as [|x t IH]; intros b Hc c Hin Hsp; [contradiction|].
  pose proof (collapsed_inv Hc) as Hi. destruct Hin as [<- | Hin].
  - rewrite Hsp in Hi. tauto.
  - destruct (is_space x); [destruct Hi as (_ & _ & Ht) | ]; eauto.
Qed.

Lemma collapsed_no_double_space (t : pystr) (b : bool) :
  collapsed b t -> occurs [SPACE; SPACE] t = false.
Proof.
  revert b. induction t as [|x t IH]; intros b Hc; [reflexivity|].
  pose proof (collapsed_inv Hc) as Hi. cbn [occurs].
  destruct (is_space x) eqn:Hx.
  - destruct Hi as (_ & -> & Ht). rewrite (IH _ Ht), orb_false_r.
    destruct t as [|y t]; [reflexivity|].
    pose proof (collapsed_inv Ht) as Hy. cbn [starts_with].
    destruct (N.eqb_spec SPACE y) as [<- | Hne]; [|now rewrite andb_false_r].
    rewrite is_space_SPACE in Hy. destruct Hy as [Hy _]. discriminate.
  - rewrite (IH _ Hi), orb_false_r. cbn [starts_with].
    destruct (N.eqb_spec SPACE x) as [<- | Hne]; [|reflexivity].
    rewrite is_space_SPACE in Hx. discriminate.
Qed.

Lemma lstrip_fixed_head (t : pystr) (c : pychar) :
  lstrip t = t -> hd_error t = Some c -> is_space c = false.
Proof.
  destruct t as [|x t]; [discriminate|]. cbn [lstrip hd_error].
  intros Hl [= <-]. destruct (is_space x) eqn:Hx; [|reflexivity].
  pose proof (lstrip_length t) as Hlen. rewrite Hl in Hlen. cbn [length] in Hlen. lia.
Qed.

Lemma rstrip_fixed_last (t : pystr) (d : pychar) :
  rstrip t = t -> t <> [] -> is_space (last t d) = false.
Proof.
  induction t as [|x t IH]; [contradiction|]. intros Hr _. cbn [rstrip] in Hr.
  destruct (rstrip t) as [|y r] eqn:Ht.
  - destruct (is_space x) eqn:Hx; [discriminate|]. injection Hr as <-. exact Hx.
  - injection Hr as <-. cbn [last]. apply IH; [reflexivity | discriminate].
Qed.

Lemma clean_text_length (s : pystr) : length (clean_text s) <= length s.
Proof.
  unfold clean_text. change (py "**") with [STAR; STAR]. change (py "*") with [STAR].
  change (py "`") with [BACKTICK]. change (py "__") with [UNDERSCORE; UNDERSCORE].
  unfold replace, re_sub_ws.
  pose proof (strip_length s) as H0.
  pose proof (replace_scan_length [STAR; STAR] (strip s) 0) as H1.
  set (x1 := replace_scan [STAR; STAR] [] 0 (strip s)) in *.
  pose proof (replace_scan_length [UNDERSCORE; UNDERSCORE] x1 0) as H2.
  set (x2 := replace_scan [UNDERSCORE; UNDERSCORE] [] 0 x1) in *.
  pose proof (replace_scan_length [BACKTICK] x2 0) as H3.
  set (x3 := replace_scan [BACKTICK] [] 0 x2) in *.
  pose proof (replace_scan_length [STAR] x3 0) as H4.
  set (x4 := replace_scan [STAR] [] 0 x3) in *.
  pose proof (sub_ws_length x4 false) as H5.
  pose proof (strip_length (sub_ws false x4)). lia.
Qed.

(** Deleting keeps only characters of the text. *)
Lemma replace_scan_In (old s : pystr) (k : nat) (c : pychar) :
  In c (replace_scan old [] k s) -> In c s.
Proof.
  revert k. induction s as [|x s IH]; intros k; [easy|].
  cbn [replace_scan]. destruct k as [|k].
  - destruct (starts_with old (x :: s)); cbn [app].
    + intros H. right. eauto.
    + intros [<- | H]; [now left | right; eauto].
  - intros H. right. eauto.
Qed.

Definition UU : pystr := [UNDERSCORE; UNDERSCORE].

Lemma replace_scan_no_match (old new s : pystr) (c : pychar) :
  starts_with old (c :: s) = false ->
  replace_scan old new 0 (c :: s) = c :: replace_scan old new 0 s.
Proof. intros H. cbn [replace_scan]. now rewrite H. Qed.

Lemma starts_with_UU (c : pychar) (s : pystr) :
  starts_with UU (c :: s) = (UNDERSCORE =? c)%N && starts_with [UNDERSCORE] s.
Proof. reflexivity. Qed.

Lemma starts_with_U (d : pychar) (s : pystr) :
  starts_with [UNDERSCORE] (d :: s) = (UNDERSCORE =? d)%N.
Proof. cbn [starts_with]. apply andb_true_r. Qed.

Lemma delete_UU_head (d : pychar) (x : pystr) :
  d <> UNDERSCORE ->
  replace_scan UU [] 0 (d :: x) = d :: replace_scan UU [] 0 x.
Proof.
  intros Hd. apply replace_scan_no_match. rewrite starts_with_UU.
  destruct (N.eqb_spec UNDERSCORE d) as [<- | _]; [contradiction | reflexivity].
Qed.

(** After the ["__"] pass no double underscore is left. *)
Lemma delete_UU_complete (n : nat) :
  forall x, length x <= n -> occurs UU (replace_scan UU [] 0 x) = false.
Proof.
  induction n as [|n IH]; intros x Hlen.
  - destruct x; [reflexivity | cbn [length] in Hlen; lia].
  - destruct x as [|c x]; [reflexivity|]. cbn [length] in Hlen.
    destruct (N.eqb_spec UNDERSCORE c) as [<- | Hc].
    + destruct x as [|d x]; [reflexivity|]. cbn [length] in Hlen.
      destruct (N.eqb_spec UNDERSCORE d) as [<- | Hd].
      * change (replace_scan UU [] 0 (UNDERSCORE :: UNDERSCORE :: x))
          with (replace_scan UU [] 0 x).
        apply IH. lia.
      * rewrite replace_scan_no_match
          by (rewrite starts_with_UU, starts_with_U;
              destruct (N.eqb_spec UNDERSCORE d); [contradiction | apply andb_false_r]).
        cbn [occurs]. rewrite (IH (d :: x)) by (cbn [length]; lia).
        rewrite orb_false_r.
        rewrite (delete_UU_head x (not_eq_sym Hd)), starts_with_UU, starts_with_U.
        destruct (N.eqb_spec UNDERSCORE d); [contradiction | apply andb_false_r].
    + rewrite (delete_UU_head x (not_eq_sym Hc)). cbn [occurs].
      rewrite (IH x) by lia. rewrite orb_false_r, starts_with_UU.
      destruct (N.eqb_spec UNDERSCORE c) as [<- | _]; [contradiction | reflexivity].
Qed.

Lemma sub_ws_head_underscore (x : pystr) :
  starts_with [UNDERSCORE] x = false ->
  starts_with [UNDERSCORE] (sub_ws false x) = false.
Proof.
  destruct x as [|d x]; [reflexivity|]. rewrite sub_ws_cons.
  destruct (is_space d); [reflexivity|]. cbn [starts_with]. now intros ->.
Qed.

Lemma sub_ws_keeps_no_UU (x : pystr) (b : bool) :
  occurs UU x = false -> occurs UU (sub_ws b x) = false.
Proof.
  revert b. induction x as [|c x IH]; intros b H; [reflexivity|].
  cbn [occurs] in H. apply orb_false_iff in H as [Hsw Hocc].
  rewrite sub_ws_cons. destruct (is_space c) eqn:Hc.
  - destruct b; [now apply IH|]. cbn [occurs]. rewrite (IH true Hocc).
    reflexivity.
  - cbn [occurs]. rewrite (IH false Hocc), orb_false_r.
    rewrite starts_with_UU in *.
    destruct (UNDERSCORE =? c)%N; [|reflexivity].
    cbn [andb] in *. now apply sub_ws_head_underscore.
Qed.

Lemma lstrip_keeps_no_UU (x : pystr) :
  occurs UU x = false -> occurs UU (lstrip x) = false.
Proof.
  induction x as [|c x IH]; [easy|]. intros H. cbn [lstrip].
  destruct (is_space c); [|exact H].
  cbn [occurs] in H. apply orb_false_iff in H as [_ H]. auto.
Qed.

Lemma starts_with_rstrip (old x : pystr) :
  starts_with old (rstrip x) = true -> starts_with old x = true.
Proof.
  revert old. induction x as [|c x IH]; intros old; [easy|].
  cbn [rstrip]. destruct old as [|a old]; [reflexivity|].
  destruct (rstrip x) as [|y r] eqn:Hr.
  - destruct (is_space c); [discriminate|]. cbn [starts_with].
    destruct old; [now rewrite !andb_true_r | now rewrite andb_false_r].
  - cbn [starts_with]. intros H. apply andb_true_iff in H as [-> H].
    now rewrite (IH _ H).
Qed.

Lemma occurs_cons (old s : pystr) (c : pychar) :
  occurs old (c :: s) = starts_with old (c :: s) || occurs old s.
Proof. reflexivity. Qed.

Lemma rstrip_keeps_no_UU (x : pystr) :
  occurs UU x = false -> occurs UU (rstrip x) = false.
Proof.
  induction x as [|c x IH]; [easy|]. intros H.
  rewrite occurs_cons in H. apply orb_false_iff in H as [Hsw Hocc].
  specialize (IH Hocc).
  pose proof (starts_with_rstrip UU (c :: x)) as Hsr. cbn [rstrip] in *.
  destruct (rstrip x) as [|y r] eqn:Hr.
  - destruct (is_space c); [reflexivity|].
    rewrite occurs_cons, starts_with_UU. cbn [starts_with occurs].
    now rewrite andb_false_r.
  - rewrite occurs_cons, IH, orb_false_r.
    destruct (starts_with UU (c :: y :: r)); [|reflexivity].
    rewrite Hsr in Hsw by reflexivity. discriminate.
Qed.

(** The second [clean_text] leaves no double underscore. *)
Lemma clean_text_twice_no_UU (t : pystr) :
  clean t -> occurs UU (clean_text t) = false.
Proof.
  intros (Hstar & Htick & Hl & Hr & _). unfold clean_text, strip at 2.
  rewrite Hl, Hr.
  change (py "**") with [STAR; STAR]. change (py "*") with [STAR].
  change (py "`") with [BACKTICK]. change (py "__") with UU.
  rewrite (@replace_absent STAR [STAR] [] t (@occurs_absent_head STAR [STAR] t Hstar)).
  set (x := replace UU [] t).
  assert (Hx : forall c, In c x -> In c t) by (intros c; apply replace_scan_In).
  rewrite (@replace_absent BACKTICK [] [] x)
    by (apply occurs_absent_head; intros H; apply Htick, Hx, H).
  rewrite (@replace_absent STAR [] [] x)
    by (apply occurs_absent_head; intros H; apply Hstar, Hx, H).
  unfold strip, re_sub_ws.
  apply rstrip_keeps_no_UU, lstrip_keeps_no_UU, sub_ws_keeps_no_UU.
  apply (delete_UU_complete (n := length t)). reflexivity.
Qed.

Lemma clean_text_In (s : pystr) (c : pychar) :
  In c (clean_text s) -> c = SPACE \/ In c s.
Proof.
  unfold clean_text, replace, re_sub_ws.
  change (py "**") with [STAR; STAR]. change (py "*") with [STAR].
  change (py "`") with [BACKTICK]. change (py "__") with UU. cbv iota beta.
  intros H. apply strip_In, sub_ws_In in H. destruct H as [H | H]; [now left|].
  right. now apply strip_In; repeat apply replace_scan_In in H.
Qed.

(** A text of whitespace, asterisks and backticks only is cleaned to the
    empty text. *)
Lemma clean_text_blank (s : pystr) :
  forallb (fun c => is_space c || (c =? STAR)%N || (c =? BACKTICK)%N) s = true ->
  clean_text s = [].
Proof.
  intros Hall.
  destruct (clean_text s) as [|c t] eqn:Ht; [reflexivity|]. exfalso.
  destruct (clean_text_clean s) as (Hstar & Htick & Hl & _).
  assert (Hsp : is_space c = false)
    by (apply (@lstrip_fixed_head (clean_text s)); [exact Hl | now rewrite Ht]).
  assert (Hc : In c s).
  { destruct (@clean_text_In s c) as [-> | H]; [rewrite Ht; now left | | exact H].
    rewrite is_space_SPACE in Hsp. discriminate. }
  rewrite Ht in Hstar, Htick.
  rewrite forallb_forall in Hall. specialize (Hall c Hc).
  rewrite Hsp in Hall. cbn [orb] in Hall.
  apply orb_true_iff in Hall as [H | H]; apply N.eqb_eq in H; subst c.
  - apply Hstar. now left.
  - apply Htick. now left.
Qed.

Lemma firstn_In_list {A} (n : nat) (l : list A) (a : A) : In a (firstn n l) -> In a l.
Proof.
  revert n. induction l as [|x l IH]; intros [|n]; cbn [firstn]; try easy.
  intros [<- | H]; [now left | right; eauto].
Qed.

End CleanTextFacts.

(** X1: the text that [clean_text] returns has no asterisk and no
    backtick, its only whitespace characters are single spaces between
    other characters: none at either end, no two in a row. *)
Theorem clean_text_normal_form (s : pystr) :
  ~ In STAR (clean_text s)
  /\ ~ In BACKTICK (clean_text s)
  /\ (forall c, In c (clean_text s) -> is_space c = true -> c = SPACE)
  /\ occurs [SPACE; SPACE] (clean_text s) = false
  /\ (forall c, hd_error (clean_text s) = Some c -> is_space c = false)
  /\ (forall d, clean_text s <> [] -> is_space (last (clean_text s) d) = false).
Proof.
  destruct (clean_text_clean s) as (Hstar & Htick & Hl & Hr & Hc).
  repeat apply conj; try assumption.
  - now apply collapsed_spaces with (b := false).
  - now apply collapsed_no_double_space with (b := false).
  - intros c. now apply lstrip_fixed_head.
  - intros d. now apply rstrip_fixed_last.
Qed.

(** X2: [clean_text] stabilizes after two applications: a third one
    changes nothing, although the second may change the first. *)
Theorem clean_text_stable_after_two (s : pystr) :
  clean_text (clean_text (clean_text s)) = clean_text (clean_text s).
Proof.
  apply clean_text_fixpoint.
  - apply clean_text_clean.
  - apply clean_text_twice_no_UU, clean_text_clean.
Qed.

(** X3: [clean_text] never lengthens a text, and a text of whitespace,
    asterisks and backticks only is cleaned to the empty text. *)
Theorem clean_text_never_longer (s : pystr) :
  length (clean_text s) <= length s
  /\ (forallb (fun c => is_space c || (c =? STAR)%N || (c =? BACKTICK)%N) s = true ->
      clean_text s = []).
Proof.
  split.
  - apply clean_text_length.
  - apply clean_text_blank.
Qed.

(** ** The content generator, when the service answers *)

(** X4: when the service returns a text that is not blank once cleaned,
    the generator returns that cleaned text cut to 100 characters and
    prints nothing; the result has no asterisk, no backtick and no
    leading whitespace. *)
Theorem generated_text_is_cleaned_service_text
  {RT : Runtime} {W : Type} {WD : World W}
  (model : pystr) (user : pydict) (s : state W) (t : pystr) (w : W) :
  generate_content model
    (news_prompt (dict_get user (py "nome") (PStr (py "Cliente")))) (world s)
  = (Ok (Some t), w) ->
  clean_text t <> [] ->
  generate_ai_news_gemini model user s
  = (Ok (firstn 100 (clean_text t)), with_world s w)
  /\ ~ In STAR (firstn 100 (clean_text t))
  /\ ~ In BACKTICK (firstn 100 (clean_text t))
  /\ (forall c, hd_error (firstn 100 (clean_text t)) = Some c -> is_space c = false).
Proof.
  intros Hcall Hne.
  pose proof (generate_returns model user s) as Hgen. cbv zeta in Hgen.
  rewrite Hcall in Hgen.
  destruct (clean_text_clean t) as (Hstar & Htick & Hl & _).
  destruct (clean_text t) as [|c r] eqn:Ht; [contradiction|].
  repeat apply conj.
  - exact Hgen.
  - intros H. apply Hstar. now apply firstn_In_list in H.
  - intros H. apply Htick. now apply firstn_In_list in H.
  - intros c' [= <-]. now apply (@lstrip_fixed_head (c :: r)).
Qed.

(** The service returns markdown around a text. *)
Lemma generated_text_witness :
  @generate_ai_news_gemini Scripted.runtime _ (Scripted.world_of Scripted.happy)
    (py "gemini-2.5-flash") Scripted.ana Scripted.start
  = (Ok (py "Invista hoje!"),
     with_world Scripted.start
       [Scripted.GENERATE (py "gemini-2.5-flash")
          (@news_prompt Scripted.runtime (PStr (py "Ana")))]).
Proof.
  refine (proj1 (@generated_text_is_cleaned_service_text Scripted.runtime _
                   (Scripted.world_of Scripted.happy)
                   (py "gemini-2.5-flash") Scripted.ana Scripted.start _ _ eq_refl _)).
  discriminate.
Defined.

(** X5: when the service returns no text, or a text of whitespace,
    asterisks and backticks only, the generator returns the fallback for
    the display name cut to 100 characters, the name taken as it is, and
    prints nothing. *)
Theorem blank_service_text_gives_plain_fallback
  {RT : Runtime} {W : Type} {WD : World W}
  (model : pystr) (user : pydict) (s : state W) (r : option pystr) (w : W) :
  generate_content model
    (news_prompt (dict_get user (py "nome") (PStr (py "Cliente")))) (world s)
  = (Ok r, w) ->
  forallb (fun c => is_space c || (c =? STAR)%N || (c =? BACKTICK)%N)
    (match r with Some t => t | None => [] end) = true ->
  generate_ai_news_gemini model user s
  = (Ok (firstn 100 (fallback_news (dict_get user (py "nome") (PStr (py "Cliente"))))),
     with_world s w).
Proof.
  intros Hcall Hblank.
  pose proof (generate_returns model user s) as Hgen. cbv zeta in Hgen.
  rewrite Hcall in Hgen. destruct r as [t|].
  - now rewrite (clean_text_blank t Hblank) in Hgen.
  - exact Hgen.
Qed.

(** The service returns [" ** ` ` ** "] for a user without a name. *)
Lemma blank_service_text_witness :
  @generate_ai_news_gemini Scripted.runtime _ (Scripted.world_of Scripted.blank_text)
    (py "gemini-2.5-flash") [(py "id", PInt 5)] Scripted.start
  = (Ok (py "Cliente, investir com consistência fortalece seu futuro financeiro."),
     with_world Scripted.start
       [Scripted.GENERATE (py "gemini-2.5-flash")
          (@news_prompt Scripted.runtime (PStr (py "Cliente")))]).
Proof.
  exact (@blank_service_text_gives_plain_fallback Scripted.runtime _
           (Scripted.world_of Scripted.blank_text)
           (py "gemini-2.5-flash") [(py "id", PInt 5)] Scripted.start _ _
           eq_refl eq_refl).
Defined.

(** ** The identifiers that enrichment assigns *)

Section EnricherFacts.
Context {RT : Runtime} {W : Type} {WD : World W}.

Lemma max_of_snoc (z m : Z) (zs : list Z) :
  max_of z (zs ++ [m]) = Z.max (max_of z zs) m.
Proof. unfold max_of. now rewrite fold_left_app. Qed.

Lemma has_id_news_item (id : Z) (icon msg : pystr) : has_id (news_item id icon msg) id.
Proof. eexists. split; reflexivity. Qed.

(** The content list that [next_news_id] reads once [setdefault] has run. *)
Lemma setdefault_news (u : pydict) :
  news_ok u = true ->
  dict_lookup (dict_setdefault u (py "news") (PList [])) (py "news")
  = Some (PList (content_items u))
  /\ py_or (dict_get (dict_setdefault u (py "news") (PList [])) (py "news") (PList []))
       (PList [])
     = PList (content_items u).
Proof.
  intros Hok. destruct (news_ok_next_id _ Hok) as (_ & _ & Hnews).
  split; [exact Hnews|]. unfold dict_get. rewrite Hnews. now destruct (content_items u).
Qed.

(** The loop body on a well-formed record, with the identifier it
    assigns. *)
Lemma add_news_result (settings : Settings) (u : pydict) (s : state W) (ids : list Z) :
  news_ok u = true ->
  Forall2 has_id (content_items u) ids ->
  exists msg s1 s2,
    let id := match ids with [] => 1 | z :: zs => 1 + max_of z zs end%Z in
    generate_ai_news_gemini (gemini_model settings) u s = (Ok msg, s1)
    /\ add_news settings u s
       = (Ok (dict_set (dict_setdefault u (py "news") (PList [])) (py "news")
                (PList (content_items u ++ [news_item id (icon_url settings) msg]))),
          s2).
Proof.
  intros Hok Hids.
  destruct (generate_total (gemini_model settings) u s) as (msg & s1 & Hgen & _).
  destruct (setdefault_news _ Hok) as [Hnews Hor].
  pose proof (next_news_id_of_list _ Hor Hids) as Hid.
  exists msg, s1. eexists. cbv zeta. split; [exact Hgen|].
  unfold add_news. unfold bind at 1. rewrite Hgen. rewrite Hnews.
  unfold bind at 1. unfold lift. rewrite Hid. reflexivity.
Qed.

Lemma next_id_above (ids : list Z) :
  Forall (fun z => z < match ids with [] => 1 | z :: zs => 1 + max_of z zs end)%Z ids.
Proof.
  destruct ids as [|z zs]; [constructor|].
  destruct (max_of_spec zs z) as [_ Hub].
  eapply Forall_impl; [|exact Hub]. cbv beta. intros a Ha. lia.
Qed.

End EnricherFacts.

(** X6: enrichment keeps the identifiers of a record's content items
    distinct: the item that [add_news] appends gets an identifier
    greater than every identifier the record had, the earlier items keep
    theirs. *)
Theorem enrichment_keeps_ids_distinct
  {RT : Runtime} {W : Type} {WD : World W}
  (settings : Settings) (u : pydict) (s : state W) (ids : list Z) :
  news_ok u = true ->
  Forall2 has_id (content_items u) ids ->
  exists u' id s',
    add_news settings u s = (Ok u', s')
    /\ Forall2 has_id (content_items u') (ids ++ [id])
    /\ Forall (fun z => z < id)%Z ids
    /\ (NoDup ids -> NoDup (ids ++ [id])).
Proof.
  intros Hok Hids.
  destruct (add_news_result settings u s Hok Hids) as (msg & s1 & s2 & _ & Hadd).
  pose proof (next_id_above ids) as Hlt.
  do 3 eexists. split; [exact Hadd|]. rewrite content_items_set.
  split; [|split].
  - apply Forall2_app; [exact Hids|]. constructor; [apply has_id_news_item | constructor].
  - exact Hlt.
  - intros Hnd. apply NoDup_app; [exact Hnd | repeat constructor; easy |].
    intros z Hz [<- | []]. rewrite Forall_forall in Hlt. specialize (Hlt _ Hz). lia.
Qed.

(** Ana's identifiers 1, 2, 4 are followed by 5. *)
Lemma enrichment_ids_witness :
  exists u' s',
    @add_news Scripted.runtime _ (Scripted.world_of Scripted.happy)
      Scripted.settings Scripted.ana Scripted.start = (Ok u', s')
    /\ Forall2 (@has_id Scripted.runtime) (content_items u') [1; 2; 4; 5]%Z.
Proof.
  destruct (@enrichment_keeps_ids_distinct Scripted.runtime _
              (Scripted.world_of Scripted.happy)
              Scripted.settings Scripted.ana Scripted.start [1; 2; 4]%Z eq_refl)
    as (u' & id & s' & Hadd & Hids & Hlt & _).
  - repeat (constructor; [eexists; split; reflexivity|]). constructor.
  - exists u', s'. split; [exact Hadd|].
    replace id with 5%Z in Hids; [exact Hids|].
    vm_compute in Hadd. injection Hadd as <- _.
    inversion Hids as [|? ? ? ? _ H1]; subst. inversion H1 as [|? ? ? ? _ H2]; subst.
    inversion H2 as [|? ? ? ? _ H3]; subst. inversion H3 as [|? ? ? ? Hid _]; subst.
    destruct Hid as (d & Hd & Hint). injection Hd as <-. vm_compute in Hint.
    now injection Hint.
Defined.

(** X7: two enrichments in a row assign consecutive identifiers: once
    [add_news] has appended an item with identifier [id], [next_news_id]
    of the enriched record is [id + 1]. *)
Theorem enrichment_ids_are_consecutive
  {RT : Runtime} {W : Type} {WD : World W}
  (settings : Settings) (u : pydict) (s : state W) (ids : list Z) :
  news_ok u = true ->
  Forall2 has_id (content_items u) ids ->
  exists u' id msg s',
    add_news settings u s = (Ok u', s')
    /\ content_items u' = content_items u ++ [news_item id (icon_url settings) msg]
    /\ next_news_id (dict_setdefault u (py "news") (PList [])) = Ok id
    /\ next_news_id u' = Ok (id + 1)%Z.
Proof.
  intros Hok Hids.
  destruct (add_news_result settings u s Hok Hids) as (msg & s1 & s2 & _ & Hadd).
  destruct (setdefault_news _ Hok) as [_ Hor].
  set (id := match ids with [] => 1 | z :: zs => 1 + max_of z zs end%Z) in *.
  do 4 eexists. split; [exact Hadd|]. rewrite content_items_set.
  split; [reflexivity|]. split; [exact (next_news_id_of_list _ Hor Hids)|].
  assert (Hids' : Forall2 has_id
                    (content_items u ++ [news_item id (icon_url settings) msg])
                    (ids ++ [id]))
    by (apply Forall2_app; [exact Hids|];
        constructor; [apply has_id_news_item | constructor]).
  match goal with |- next_news_id ?d = _ => set (u' := d) end.
  assert (Hor' : py_or (dict_get u' (py "news") (PList [])) (PList [])
                 = PList (content_items u ++ [news_item id (icon_url settings) msg]))
    by (unfold dict_get, u'; rewrite dict_lookup_set_same; apply py_or_snoc).
  rewrite (next_news_id_of_list _ Hor' Hids').
  f_equal. subst id. destruct ids as [|z zs]; cbn [app].
  - reflexivity.
  - rewrite max_of_snoc. lia.
Qed.

(** Bia has no content list: the first identifier is 1, the next 2. *)
Lemma enrichment_consecutive_witness :
  exists u' msg s',
    @add_news Scripted.runtime _ (Scripted.world_of Scripted.happy)
      Scripted.settings Scripted.bia Scripted.start = (Ok u', s')
    /\ content_items u' = [news_item 1 (icon_url Scripted.settings) msg]
    /\ @next_news_id Scripted.runtime u' = Ok 2%Z.
Proof.
  destruct (@enrichment_ids_are_consecutive Scripted.runtime _
              (Scripted.world_of Scripted.happy)
              Scripted.settings Scripted.bia Scripted.start [] eq_refl (Forall2_nil _))
    as (u' & id & msg & s' & Hadd & Hitems & Hid & Hnext).
  vm_compute in Hid. injection Hid as <-.
  exists u', msg, s'. split; [exact Hadd|]. split; [exact Hitems | exact Hnext].
Defined.

(** X8: a record whose ["news"] is present but is no list ([null], for
    one) makes [add_news] raise [AttributeError], after the generation
    service has been called for it; the stage then raises it too and
    leaves the records that follow unprocessed. *)
Theorem enrichment_raises_on_non_list_news
  {RT : Runtime} {W : Type} {WD : World W}
  (settings : Settings) (u : pydict) (rest : list pydict) (v : pyval) (s : state W)
  (c : pychar) (key : pystr) :
  dict_lookup u (py "news") = Some v ->
  (forall l, v <> PList l) ->
  gemini_api_key settings = Some (c :: key) ->
  exists msg s1,
    generate_ai_news_gemini (gemini_model settings) u s = (Ok msg, s1)
    /\ add_news settings u s
       = (Raise (Exc AttributeError (py "object has no attribute 'append'")), s1)
    /\ transform_add_news_gemini settings (u :: rest) s
       = (Raise (Exc AttributeError (py "object has no attribute 'append'")), s1).
Proof.
  intros Hnews Hv Hkey.
  destruct (generate_total (gemini_model settings) u s) as (msg & s1 & Hgen & _).
  assert (Hadd : add_news settings u s
                 = (Raise (Exc AttributeError (py "object has no attribute 'append'")), s1)).
  { unfold add_news. unfold bind at 1. rewrite Hgen.
    unfold dict_setdefault. rewrite Hnews, Hnews.
    destruct v as [| | | | |l|]; try reflexivity. now destruct (Hv l). }
  exists msg, s1. split; [exact Hgen|]. split; [exact Hadd|].
  unfold transform_add_news_gemini. rewrite Hkey. cbn [for_each].
  unfold bind at 1. now rewrite Hadd.
Qed.

(** Caio's content list is [null]; Ana, behind him, is not processed. *)
Lemma enrichment_null_news_witness :
  fst (@transform_add_news_gemini Scripted.runtime _ (Scripted.world_of Scripted.happy)
         Scripted.settings [Scripted.caio; Scripted.ana] Scripted.start)
  = Raise (Exc AttributeError (py "object has no attribute 'append'")).
Proof.
  destruct (@enrichment_raises_on_non_list_news Scripted.runtime _
              (Scripted.world_of Scripted.happy)
              Scripted.settings Scripted.caio [Scripted.ana] PNone Scripted.start
              107%N (py "ey") eq_refl)
    as (msg & s1 & _ & _ & Hrun).
  - discriminate.
  - reflexivity.
  - now rewrite Hrun.
Defined.

(** ** The report writer *)

Section ReportFacts.

Lemma report_row_of_identity (u : pydict) (row : report_row) :
  report_row_of u = Ok row ->
  row_user_id row = dict_get u (py "id") PNone
  /\ row_nome row = dict_get u (py "nome") PNone.
Proof.
  unfold report_row_of, rbind. intros H.
  repeat match type of H with
         | context [match ?x with _ => _ end] => destruct x; try discriminate
         end;
    injection H as <-; split; reflexivity.
Qed.

Lemma rmap_inv {A B} (f : A -> result B) (l : list A) (l' : list B) :
  rmap f l = Ok l' -> Forall2 (fun a b => f a = Ok b) l l'.
Proof.
  revert l'. induction l as [|a l IH]; intros l'; cbn [rmap].
  - intros [= <-]. constructor.
  - destruct (f a) as [b|e] eqn:Hb; [|discriminate]. cbn [rbind].
    destruct (rmap f l) as [bs|e]; [|discriminate]. cbn [rbind].
    intros [= <-]. constructor; [exact Hb | now apply IH].
Qed.

Lemma rmap_raises {A B} (f : A -> result B) (pre post : list A) (bad : A) (e : pyexc) :
  Forall (fun a => exists b, f a = Ok b) pre ->
  f bad = Raise e ->
  rmap f (pre ++ bad :: post) = Raise e.
Proof.
  intros Hpre Hbad. induction Hpre as [|a pre [b Hb] _ IH]; cbn [app rmap].
  - now rewrite Hbad.
  - now rewrite Hb, IH.
Qed.

End ReportFacts.

(** X9: when the report rows are built, there is one row per record of
    the batch, in batch order, and each row carries the identifier and
    the name of its record as they are. *)
Theorem report_has_one_row_per_record (users : list pydict) (rows : list report_row) :
  report_rows users = Ok rows ->
  length rows = length users
  /\ map row_user_id rows = map (fun u => dict_get u (py "id") PNone) users
  /\ map row_nome rows = map (fun u => dict_get u (py "nome") PNone) users.
Proof.
  intros H. apply rmap_inv in H.
  induction H as [|u row users rows Hrow _ (IHlen & IHid & IHnome)].
  - repeat split.
  - destruct (report_row_of_identity _ Hrow) as [Hid Hnome].
    cbn [length map]. now rewrite IHlen, IHid, IHnome, Hid, Hnome.
Qed.

(** Ana, with three content items, and Bia, with no content list. *)
Lemma report_rows_witness :
  exists rows,
    report_rows [Scripted.ana; Scripted.bia] = Ok rows
    /\ map row_user_id rows = [PInt 1; PInt 2].
Proof.
  eexists. split; [reflexivity|].
  exact (proj1 (proj2 (@report_has_one_row_per_record
                         [Scripted.ana; Scripted.bia] _ eq_refl))).
Defined.

(** X10: a record whose account and content list are absent or falsy
    ([null], empty) gives a row of defaults and no failure: empty branch
    and account number, balance and limit 0.0, zero content items, empty
    last text. *)
Theorem report_row_defaults (u : pydict) :
  truthy (dict_get u (py "conta") (PDict [])) = false ->
  truthy (dict_get u (py "news") (PList [])) = false ->
  report_row_of u
  = Ok {| row_user_id := dict_get u (py "id") PNone;
          row_nome := dict_get u (py "nome") PNone;
          row_agencia := PStr [];
          row_conta := PStr [];
          row_balanco := PFloat (S754_zero false);
          row_limite := PFloat (S754_zero false);
          qtd_news_total := 0;
          ultima_news := [] |}.
Proof.
  intros Hconta Hnews. unfold report_row_of, py_or. rewrite Hconta, Hnews.
  reflexivity.
Qed.

(** A record with a [null] account and an empty content list. *)
Lemma report_row_defaults_witness :
  exists row,
    report_row_of [(py "id", PInt 9); (py "conta", PNone); (py "news", PList [])] = Ok row
    /\ qtd_news_total row = 0 /\ row_agencia row = PStr [].
Proof.
  eexists. split.
  - apply (@report_row_defaults
             [(py "id", PInt 9); (py "conta", PNone); (py "news", PList [])]);
      reflexivity.
  - split; reflexivity.
Defined.

(** X11: the row of a record counts all its content items but reads
    only the last one: whatever the earlier items are, the last text of
    the row is the cleaned [descricao] of the last item. *)
Theorem report_row_reads_only_last_item
  (u : pydict) (earlier : list pyval) (d : pydict) (t : pystr) :
  conta_ok u = true ->
  dict_lookup u (py "news") = Some (PList (earlier ++ [PDict d])) ->
  dict_get d (py "descricao") (PStr []) = PStr t ->
  exists row,
    report_row_of u = Ok row
    /\ qtd_news_total row = length earlier + 1
    /\ ultima_news row = clean_text t.
Proof.
  intros Hconta Hnews Hd. unfold conta_ok in Hconta.
  assert (Hget : dict_get u (py "news") (PList []) = PList (earlier ++ [PDict d]))
    by (unfold dict_get; now rewrite Hnews).
  unfold report_row_of. cbv zeta.
  destruct (py_or (dict_get u (py "conta") (PDict [])) (PDict []))
    as [| | | | | |conta]; try discriminate.
  rewrite Hget, py_or_snoc, truthy_snoc, any_last_snoc.
  cbn [rbind any_get any_len]. rewrite Hd. cbn [rbind clean_text_any].
  eexists. split; [reflexivity|]. cbn [qtd_news_total ultima_news].
  split; [apply length_app | reflexivity].
Qed.

(** The earlier items are a number and [null]. *)
Lemma report_row_last_item_witness :
  exists row,
    report_row_of
      [(py "news", PList [PInt 7; PNone; PDict [(py "descricao", PStr (py " *Oi* "))]])]
    = Ok row
    /\ qtd_news_total row = 3
    /\ ultima_news row = py "Oi".
Proof.
  exact (@report_row_reads_only_last_item
           [(py "news", PList [PInt 7; PNone; PDict [(py "descricao", PStr (py " *Oi* "))]])]
           [PInt 7; PNone] [(py "descricao", PStr (py " *Oi* "))] (py " *Oi* ")
           eq_refl eq_refl eq_refl).
Defined.

(** X12: the report is written whole or not at all: when the row of one
    record of the batch cannot be built, [save_report_csv] raises before
    it writes a file or prints, whatever rows the other records have. *)
Theorem report_is_never_written_in_part
  {W : Type} {WD : World W}
  (before after : list pydict) (bad : pydict) (e : pyexc) (path : pystr) (s : state W) :
  Forall (fun u => exists row, report_row_of u = Ok row) before ->
  report_row_of bad = Raise e ->
  save_report_csv (before ++ bad :: after) path s = (Raise e, s).
Proof.
  intros Hbefore Hbad. unfold save_report_csv, report_rows.
  unfold bind at 1. unfold lift.
  now rewrite (@rmap_raises _ _ report_row_of before after bad e Hbefore Hbad).
Qed.

(** A record whose account is a text, between Ana and Bia. *)
Lemma report_not_in_part_witness :
  @save_report_csv _ (Scripted.world_of Scripted.happy)
    ([Scripted.ana] ++ [(py "id", PInt 3); (py "conta", PStr (py "x"))] :: [Scripted.bia])
    (py "report_etl.csv") Scripted.start
  = (Raise (Exc AttributeError (py "object has no attribute 'get'")), Scripted.start).
Proof.
  apply (@report_is_never_written_in_part _ (Scripted.world_of Scripted.happy)).
  - constructor; [eexists; reflexivity | constructor].
  - reflexivity.
Defined.

(** ** The fetch loop and the update loop *)

Section LoopFacts.
Context {RT : Runtime} {W : Type} {WD : World W}.

(** What one lookup does to the console: nothing, or one warning or
    error line when it gives [None]. *)
Lemma get_user_console (api : pystr) (uid timeout : Z) (s s' : state W) r :
  get_user api uid timeout s = (r, s') ->
  console s' = console s
  \/ (r = Ok None /\ exists l, console s' = console s ++ [l] /\ is_problem l = true).
Proof.
  destruct (requests_get (user_url api (PInt uid)) timeout (world s))
    as [[resp|e] w] eqn:Hget.
  - destruct (Z.eq_dec (status_code resp) 200) as [Hst | Hst].
    + rewrite (get_user_200 _ _ _ _ Hget Hst). intros [= <- <-]. now left.
    + destruct (get_user_not_200 _ _ _ _ Hget Hst) as [msg ->].
      intros [= <- <-]. right. split; [reflexivity|]. eexists. split; [reflexivity|].
      now destruct (status_code resp =? 404)%Z.
  - rewrite (get_user_raises _ _ _ _ Hget). intros [= <- <-]. now left.
Qed.

Lemma fetch_users_grows (settings : Settings) (user_ids : list Z) :
  forall (batch : list pydict) (s : state W) users s',
    fetch_users settings user_ids batch s = (Ok users, s') ->
    exists fetched logs,
      users = batch ++ fetched
      /\ console s' = console s ++ logs
      /\ length fetched + length logs <= length user_ids
      /\ forallb is_problem logs = true.
Proof.
  induction user_ids as [|uid rest IH]; intros batch s users s'.
  - cbn [fetch_users]. unfold ret. intros [= <- <-].
    exists [], []. now rewrite !app_nil_r.
  - rewrite fetch_users_step.
    destruct (get_user _ _ _ s) as [[[[|kv d]|]|e] s1] eqn:Hu; try discriminate;
      intros Hrest; destruct (IH _ _ _ _ Hrest) as (fetched & logs & -> & Hcon & Hlen & Hlogs);
      destruct (get_user_console _ _ _ _ Hu) as [Hsame | (Hnone & l & Hl & Hprob)];
      try discriminate.
    + exists fetched, logs. rewrite Hcon, Hsame. cbn [length]. repeat split; auto; lia.
    + exists ((kv :: d) :: fetched), logs. rewrite Hcon, Hsame, <- app_assoc.
      cbn [length app]. repeat split; auto; lia.
    + exists fetched, logs. rewrite Hcon, Hsame. cbn [length]. repeat split; auto; lia.
    + exists fetched, (l :: logs). rewrite Hcon, Hl, <- app_assoc.
      cbn [length app forallb]. rewrite Hprob, Hlogs. repeat split; auto; lia.
Qed.

Lemma fetch_users_not_found (settings : Settings) (user_ids : list Z) :
  (forall url t (w : W), exists resp w',
      requests_get url t w = (Ok resp, w') /\ status_code resp <> 200%Z) ->
  forall (batch : list pydict) (s : state W),
  exists s', fetch_users settings user_ids batch s = (Ok batch, s').
Proof.
  intros Hnf. induction user_ids as [|uid rest IH]; intros batch s.
  - now exists s.
  - rewrite fetch_users_step.
    destruct (Hnf (user_url (api_url settings) (PInt uid)) (timeout_sec settings) (world s))
      as (resp & w & Hget & Hst).
    destruct (get_user_not_200 _ _ _ _ Hget Hst) as [msg ->]. apply IH.
Qed.

Lemma update_user_answered (api : pystr) (u : pydict) (timeout : Z) (s : state W) resp w :
  requests_put (user_url api (dict_get u (py "id") PNone)) u timeout (world s)
  = (Ok resp, w) ->
  status_code resp = 200%Z ->
  update_user api u timeout s = (Ok true, with_world s w).
Proof.
  intros Hput Hst. unfold update_user. unfold bind at 1. unfold call.
  now rewrite Hput, Hst.
Qed.

(** What one update does: [True] and nothing printed, or [False] and one
    error line. *)
Lemma update_user_console (api : pystr) (u : pydict) (timeout : Z) (s s' : state W) b :
  update_user api u timeout s = (Ok b, s') ->
  (b = true /\ console s' = console s)
  \/ (b = false /\ exists l, console s' = console s ++ [l] /\ is_error l = true).
Proof.
  destruct (requests_put (user_url api (dict_get u (py "id") PNone)) u timeout (world s))
    as [[resp|e] w] eqn:Hput.
  - destruct (Z.eq_dec (status_code resp) 200) as [Hst | Hst].
    + rewrite (update_user_answered _ _ _ _ Hput Hst). intros [= <- <-]. now left.
    + destruct (update_user_not_200 _ _ _ _ Hput Hst) as [msg ->].
      intros [= <- <-]. right. split; [reflexivity|]. eexists. now split.
  - now rewrite (update_user_raises _ _ _ _ Hput).
Qed.

Lemma update_users_tally (settings : Settings) (users : list pydict) :
  forall (n : Z) (s : state W) k s',
    update_users settings users n s = (Ok k, s') ->
    exists errors,
      console s' = console s ++ errors
      /\ forallb is_error errors = true
      /\ (k + Z.of_nat (length errors) = n + Z.of_nat (length users))%Z
      /\ length errors <= length users.
Proof.
  induction users as [|u rest IH]; intros n s k s'.
  - cbn [update_users]. unfold ret. intros [= <- <-].
    exists []. rewrite app_nil_r. cbn [length]. repeat split; lia.
  - rewrite update_users_step.
    destruct (update_user _ _ _ s) as [[b|e] s1] eqn:Hu; [|discriminate].
    intros Hrest. destruct (IH _ _ _ _ Hrest) as (errors & Hcon & Herr & Hk & Hle).
    destruct (update_user_console _ _ _ _ Hu) as [[-> Hsame] | (-> & l & Hl & Hprob)].
    + exists errors. rewrite Hcon, Hsame. cbn [length].
      split; [reflexivity|]. split; [exact Herr|]. split; lia.
    + exists (l :: errors). rewrite Hcon, Hl, <- app_assoc.
      cbn [length app forallb]. rewrite Hprob, Herr.
      split; [reflexivity|]. split; [reflexivity|]. split; lia.
Qed.

Lemma for_each_length {A B} (f : A -> Run W B) (xs : list A) :
  forall s ys s', for_each f xs s = (Ok ys, s') -> length ys = length xs.
Proof.
  induction xs as [|x xs IH]; intros s ys s'; cbn [for_each].
  - unfold ret. now intros [= <- _].
  - unfold bind at 1. destruct (f x s) as [[y|e] s1]; [|discriminate].
    unfold bind at 1. destruct (for_each f xs s1) as [[ys'|e] s2] eqn:Hxs; [|discriminate].
    unfold ret. intros [= <- _]. cbn [length]. f_equal. eauto.
Qed.

Lemma transform_length (settings : Settings) (users : list pydict) (s : state W)
      users' s' :
  transform_add_news_gemini settings users s = (Ok users', s') ->
  length users' = length users.
Proof.
  unfold transform_add_news_gemini.
  destruct (gemini_api_key settings) as [[|c key]|]; try discriminate.
  apply for_each_length.
Qed.

End LoopFacts.

(** X13: the fetch loop only appends to the batch, the records already
    in it kept in place, and prints only warning and error lines; the
    records fetched and the lines printed together are no more than the
    identifiers. *)
Theorem fetch_loop_appends_and_logs
  {RT : Runtime} {W : Type} {WD : World W}
  (settings : Settings) (user_ids : list Z) (batch : list pydict) (s : state W)
  (users : list pydict) (s' : state W) :
  fetch_users settings user_ids batch s = (Ok users, s') ->
  exists fetched logs,
    users = batch ++ fetched
    /\ console s' = console s ++ logs
    /\ length fetched + length logs <= length user_ids
    /\ forallb is_problem logs = true.
Proof.
  intros Hrun. destruct (fetch_users_grows _ _ _ _ Hrun) as (fetched & logs & H).
  now exists fetched, logs.
Qed.

(** Identifiers 1 and 2 are fetched after Bia, 999 gives a warning. *)
Lemma fetch_loop_witness :
  exists fetched (logs : list console_line),
    fst (@fetch_users Scripted.runtime _ (Scripted.world_of Scripted.happy)
           Scripted.settings [1; 2; 999]%Z [Scripted.bia] Scripted.start)
    = Ok ([Scripted.bia] ++ fetched)
    /\ length fetched + length logs <= 3.
Proof.
  destruct (@fetch_loop_appends_and_logs Scripted.runtime _
              (Scripted.world_of Scripted.happy)
              Scripted.settings [1; 2; 999]%Z [Scripted.bia] Scripted.start
              [Scripted.bia; Scripted.ana; Scripted.bia]
              (snd (@fetch_users Scripted.runtime _ (Scripted.world_of Scripted.happy)
                      Scripted.settings [1; 2; 999]%Z [Scripted.bia] Scripted.start))
              eq_refl)
    as (fetched & logs & Hu & _ & Hlen & _).
  exists fetched, logs. split; [|exact Hlen]. now rewrite <- Hu.
Defined.

(** X14: a lookup answered 200 with a body that is no JSON is not
    skipped: the decoding error is raised from [get_user] and from the
    fetch loop, the remaining identifiers not looked up. *)
Theorem undecodable_body_ends_the_fetch
  {RT : Runtime} {W : Type} {WD : World W}
  (settings : Settings) (uid : Z) (rest : list Z) (batch : list pydict) (s : state W)
  (resp : response) (w : W) (e : pyexc) :
  requests_get (user_url (api_url settings) (PInt uid)) (timeout_sec settings) (world s)
  = (Ok resp, w) ->
  status_code resp = 200%Z ->
  json resp = Raise e ->
  get_user (api_url settings) uid (timeout_sec settings) s = (Raise e, with_world s w)
  /\ fetch_users settings (uid :: rest) batch s = (Raise e, with_world s w).
Proof.
  intros Hget Hst Hjson.
  assert (Hu : get_user (api_url settings) uid (timeout_sec settings) s
               = (Raise e, with_world s w))
    by (rewrite (get_user_200 _ _ _ _ Hget Hst); now rewrite Hjson).
  split; [exact Hu|]. rewrite fetch_users_step. now rewrite Hu.
Qed.

(** The body for identifier 1 is HTML: identifier 2 is not looked up. *)
Lemma undecodable_body_witness :
  @fetch_users Scripted.runtime _ (Scripted.world_of Scripted.broken_body)
    Scripted.settings [1; 2]%Z [] Scripted.start
  = (Raise (Exc JSONDecodeError (py "Expecting value")),
     with_world Scripted.start [Scripted.GET (py "https://api.test/usuario/1")]).
Proof.
  exact (proj2 (@undecodable_body_ends_the_fetch Scripted.runtime _
                  (Scripted.world_of Scripted.broken_body)
                  Scripted.settings 1%Z [2%Z] [] Scripted.start _ _ _
                  eq_refl eq_refl eq_refl)).
Defined.

(** X15: when the service answers every lookup with a status other than
    200, the batch stays empty and [main] raises [RuntimeError] once all
    identifiers have been tried: nothing is generated, reported or
    updated. *)
Theorem no_record_found_ends_the_run
  {RT : Runtime} {W : Type} {WD : World W}
  (settings : Settings) (s : state W) (user_ids : list Z) (s1 : state W) :
  (forall url t (w : W), exists resp w',
      requests_get url t w = (Ok resp, w') /\ status_code resp <> 200%Z) ->
  read_user_ids (csv_path settings)
    (logged (logged (logged s (Log INFO (py "API_URL=" ++ api_url settings)))
               (Log INFO (py "CSV_PATH=" ++ csv_path settings)))
       (Log INFO (py "GEMINI_MODEL=" ++ gemini_model settings)))
  = (Ok user_ids, s1) ->
  exists s',
    fetch_users settings user_ids []
      (logged (logged s1 (Log INFO (py "IDs do CSV: " ++ str_of_ints user_ids))) Separator)
    = (Ok [], s')
    /\ main settings s
       = (Raise (Exc RuntimeError (py "Nenhum usuário válido foi carregado da API.")), s').
Proof.
  intros Hnf Hread.
  destruct (fetch_users_not_found settings user_ids Hnf []
              (logged (logged s1 (Log INFO (py "IDs do CSV: " ++ str_of_ints user_ids)))
                 Separator)) as [s' Hfetch].
  exists s'. split; [exact Hfetch|]. unfold main.
  unfold bind at 1. unfold info at 1, print.
  unfold bind at 1. unfold info at 1, print.
  unfold bind at 1. unfold info at 1, print.
  unfold bind at 1. rewrite Hread.
  unfold bind at 1. unfold info at 1, print.
  unfold bind at 1. unfold separator at 1, print.
  unfold bind at 1. now rewrite Hfetch.
Qed.

(** Every lookup is answered 404. *)
Lemma no_record_found_witness :
  fst (Scripted.run_main Scripted.nobody Scripted.settings)
  = Raise (Exc RuntimeError (py "Nenhum usuário válido foi carregado da API.")).
Proof.
  destruct (@no_record_found_ends_the_run Scripted.runtime _
              (Scripted.world_of Scripted.nobody)
              Scripted.settings Scripted.start [1; 2; 999]%Z
              (snd (@read_user_ids Scripted.runtime _ (Scripted.world_of Scripted.nobody)
                      (csv_path Scripted.settings)
                      (logged (logged (logged Scripted.start
                         (Log INFO (py "API_URL=" ++ api_url Scripted.settings)))
                         (Log INFO (py "CSV_PATH=" ++ csv_path Scripted.settings)))
                         (Log INFO (py "GEMINI_MODEL=" ++ gemini_model Scripted.settings))))))
    as (s' & _ & Hmain).
  - intros url t w. do 2 eexists. split; [reflexivity | discriminate].
  - reflexivity.
  - unfold Scripted.run_main. now rewrite Hmain.
Defined.

(** X16: the update loop counts every record once: the successes it
    returns and the error lines it prints add up to the count it started
    from plus the number of records; it prints nothing else. *)
Theorem update_loop_tally
  {RT : Runtime} {W : Type} {WD : World W}
  (settings : Settings) (users : list pydict) (ok_count : Z) (s : state W)
  (k : Z) (s' : state W) :
  update_users settings users ok_count s = (Ok k, s') ->
  exists errors,
    console s' = console s ++ errors
    /\ forallb is_error errors = true
    /\ (k + Z.of_nat (length errors) = ok_count + Z.of_nat (length users))%Z
    /\ (ok_count <= k <= ok_count + Z.of_nat (length users))%Z.
Proof.
  intros Hrun.
  destruct (update_users_tally _ _ _ _ Hrun) as (errors & Hcon & Herr & Hk & Hle).
  exists errors. split; [exact Hcon|]. split; [exact Herr|]. split; [exact Hk|]. lia.
Qed.

(** Every update is answered 500: no success, two error lines. *)
Lemma update_loop_witness :
  exists errors : list console_line,
    fst (@update_users Scripted.runtime _ (Scripted.world_of Scripted.put_rejected)
           Scripted.settings [Scripted.ana; Scripted.bia] 0%Z Scripted.start) = Ok 0%Z
    /\ length errors = 2.
Proof.
  destruct (@update_loop_tally Scripted.runtime _ (Scripted.world_of Scripted.put_rejected)
              Scripted.settings [Scripted.ana; Scripted.bia] 0%Z Scripted.start 0%Z
              (snd (@update_users Scripted.runtime _
                      (Scripted.world_of Scripted.put_rejected)
                      Scripted.settings [Scripted.ana; Scripted.bia] 0%Z Scripted.start))
              eq_refl)
    as (errors & _ & _ & Hk & _).
  exists errors. split; [reflexivity|]. cbn [length] in Hk. lia.
Defined.

(** ** The summary of a run *)

(** X17: when [main] completes, the batch it reports is not empty and
    the number of successful updates lies between zero and the size of
    the batch. *)
Theorem main_summary_is_consistent
  {RT : Runtime} {W : Type} {WD : World W}
  (settings : Settings) (s : state W) (k : Z) (n : nat) (s' : state W) :
  main settings s = (Ok (k, n), s') ->
  1 <= n /\ (0 <= k <= Z.of_nat n)%Z.
Proof.
  intros H. unfold main in H.
  unfold bind at 1 in H. unfold info at 1, print in H.
  unfold bind at 1 in H. unfold info at 1, print in H.
  unfold bind at 1 in H. unfold info at 1, print in H.
  unfold bind at 1 in H.
  destruct (read_user_ids _ _) as [[user_ids|e] s1]; [|discriminate].
  unfold bind at 1 in H. unfold info at 1, print in H.
  unfold bind at 1 in H. unfold separator at 1, print in H.
  unfold bind at 1 in H.
  destruct (fetch_users _ _ _ _) as [[[|u0 users]|e] s2]; try discriminate.
  unfold bind at 1 in H. unfold info at 1, print in H.
  unfold bind at 1 in H. unfold lift in H.
  destruct (print_users_table _ _) as [table|e]; [|discriminate].
  unfold bind at 1 in H.
  unfold bind at 1 in H. unfold separator at 1, print in H.
  unfold bind at 1 in H.
  destruct (transform_add_news_gemini _ _ _) as [[users'|e] s3] eqn:Htrans; [|discriminate].
  unfold bind at 1 in H. unfold separator at 1, print in H.
  unfold bind at 1 in H.
  destruct (save_report_csv _ _ _) as [[[]|e] s4]; [|discriminate].
  unfold bind at 1 in H.
  destruct (update_users _ _ _ _) as [[k'|e] s5] eqn:Hupd; [|discriminate].
  unfold bind, done, ret in H. injection H as <- <- _.
  apply transform_length in Htrans. cbn [length] in Htrans.
  destruct (update_users_tally _ _ _ _ Hupd) as (errors & _ & _ & Hk & Hle).
  split; lia.
Qed.

(** The run of the scripted service: two of two. *)
Lemma main_summary_witness :
  fst (Scripted.run_main Scripted.happy Scripted.settings) = Ok (2%Z, 2)
  /\ 1 <= 2 /\ (0 <= 2 <= Z.of_nat 2)%Z.
Proof.
  split; [reflexivity|].
  exact (@main_summary_is_consistent Scripted.runtime _ (Scripted.world_of Scripted.happy)
           Scripted.settings Scripted.start 2%Z 2
           (snd (Scripted.run_main Scripted.happy Scripted.settings)) eq_refl).
Defined.

(** ** The identity source reader, seen from its result *)

(** X18: when the file has neither a [user_id] nor a [UserID] column
    (the names are compared as they are, case included),
    [read_user_ids] raises [ValueError] with a message that lists the
    columns found, and converts nothing. *)
Theorem read_user_ids_requires_a_recognized_column
  {RT : Runtime} {W : Type} {WD : World W}
  (path : pystr) (s : state W) (df : dataframe) (w : W) :
  read_csv path (world s) = (Ok df, w) ->
  has_column df (py "user_id") = false ->
  has_column df (py "UserID") = false ->
  read_user_ids path s
  = (Raise (Exc ValueError
       (py "CSV precisa ter coluna 'user_id' ou 'UserID'. Colunas encontradas: "
        ++ py_str (PList (map (fun c => PStr (fst c)) df)))),
     with_world s w).
Proof.
  intros Hread H1 H2. unfold read_user_ids.
  unfold bind at 1. unfold call. rewrite Hread.
  unfold id_column, col_candidates. cbn [find]. now rewrite H1, H2.
Qed.

(** The only column is named [USER_ID]. *)
Lemma read_user_ids_column_witness :
  exists msg,
    fst (@read_user_ids Scripted.runtime _ (Scripted.world_of Scripted.wrong_header)
           (py "data/users_ids.csv") Scripted.start)
    = Raise (Exc ValueError msg).
Proof.
  eexists.
  now rewrite (@read_user_ids_requires_a_recognized_column Scripted.runtime _
                 (Scripted.world_of Scripted.wrong_header)
                 (py "data/users_ids.csv") Scripted.start _ _ eq_refl eq_refl eq_refl).
Defined.

(** X19: whatever [read_user_ids] returns is never empty and is exactly
    the sequence of the converted non-missing cells, in row order, of the
    [user_id] column when the file has one and of the [UserID] column
    otherwise; reading prints nothing. *)
Theorem read_user_ids_result_is_sound
  {RT : Runtime} {W : Type} {WD : World W}
  (path : pystr) (s : state W) (ids : list Z) (s' : state W) :
  read_user_ids path s = (Ok ids, s') ->
  ids <> []
  /\ console s' = console s
  /\ exists df col,
       read_csv path (world s) = (Ok df, world s')
       /\ (has_column df (py "user_id") = true /\ col = py "user_id"
           \/ has_column df (py "user_id") = false
              /\ has_column df (py "UserID") = true /\ col = py "UserID")
       /\ Forall2 (fun cell z => astype_int cell = Ok z)
            (filter (fun cell => negb (isna cell)) (column df col)) ids.
Proof.
  unfold read_user_ids. unfold bind at 1. unfold call.
  destruct (read_csv path (world s)) as [[df|e] w] eqn:Hread; [|discriminate].
  destruct (id_column df) as [col|] eqn:Hcol; [|discriminate].
  unfold bind, lift.
  destruct (rmap astype_int (dropna (column df col))) as [zs|e] eqn:Hmap; [|discriminate].
  destruct zs as [|z zs]; [discriminate|]. unfold ret. intros [= <- <-].
  split; [discriminate|]. split; [reflexivity|].
  exists df, col. split; [reflexivity|]. split; [|now apply rmap_inv].
  unfold id_column, col_candidates in Hcol. cbn [find] in Hcol.
  destruct (has_column df (py "user_id")).
  - left. now injection Hcol as <-.
  - right. destruct (has_column df (py "UserID")); [|discriminate].
    now injection Hcol as <-.
Qed.

(** The file has both columns: the values come from [user_id]. *)
Lemma read_user_ids_sound_witness :
  [3; 1; 3]%Z <> []
  /\ fst (@read_user_ids Scripted.runtime _ (Scripted.world_of Scripted.csv_with_gaps)
            (py "data/users_ids.csv") Scripted.start) = Ok [3; 1; 3]%Z.
Proof.
  split; [|reflexivity].
  exact (proj1 (@read_user_ids_result_is_sound Scripted.runtime _
                  (Scripted.world_of Scripted.csv_with_gaps)
                  (py "data/users_ids.csv") Scripted.start [3; 1; 3]%Z
                  (snd (@read_user_ids Scripted.runtime _
                          (Scripted.world_of Scripted.csv_with_gaps)
                          (py "data/users_ids.csv") Scripted.start))
                  eq_refl)).
Defined.

(** ** Settings *)

Section SettingsFacts.

Lemma rstrip_chars_spec (chars s : pystr) :
  exists tail,
    s = rstrip_chars chars s ++ tail
    /\ Forall (fun c => existsb (N.eqb c) chars = true) tail
    /\ (forall d, rstrip_chars chars s <> [] ->
          existsb (N.eqb (last (rstrip_chars chars s) d)) chars = false).
Proof.
  induction s as [|c s (tail & Hs & Htail & Hlast)].
  - exists []. split; [reflexivity|]. split; [constructor | easy].
  - cbn [rstrip_chars]. destruct (rstrip_chars chars s) as [|y r] eqn:Hr.
    + cbn [app] in Hs. subst tail. destruct (existsb (N.eqb c) chars) eqn:Hc.
      * exists (c :: s). split; [reflexivity|]. split; [now constructor | easy].
      * exists s. split; [reflexivity|]. split; [assumption|].
        intros d _. exact Hc.
    + exists tail. split; [cbn [app] in *; now rewrite <- Hs|]. split; [assumption|].
      intros d _. apply (Hlast d). discriminate.
Qed.

Lemma slashes_only (tail : pystr) :
  Forall (fun c => existsb (N.eqb c) (py "/") = true) tail ->
  tail = repeat SLASH (length tail).
Proof.
  induction 1 as [|c tail Hc _ IH]; [reflexivity|]. cbn [length repeat].
  rewrite <- IH. f_equal. change (py "/") with [SLASH] in Hc. cbn [existsb] in Hc.
  rewrite orb_false_r in Hc. now apply N.eqb_eq.
Qed.

End SettingsFacts.

(** X20: the service address that [load_settings] returns is the
    configured (or default) address without its trailing slashes, all of
    them, and nothing else removed: it does not end in a slash. *)
Theorem load_settings_strips_trailing_slashes
  {RT : Runtime} (env : environ) (st : Settings) :
  load_settings env = Ok st ->
  (exists k,
      getenv env (py "API_URL") (py "https://usersapipython.up.railway.app")
      = api_url st ++ repeat SLASH k)
  /\ (forall d, api_url st <> [] -> last (api_url st) d <> SLASH).
Proof.
  unfold load_settings. cbv zeta.
  destruct (py_int _) as [width|e]; [|discriminate]. cbn [rbind]. intros [= <-].
  cbn [api_url].
  destruct (rstrip_chars_spec (py "/")
              (getenv env (py "API_URL") (py "https://usersapipython.up.railway.app")))
    as (tail & Hs & Htail & Hlast).
  split.
  - exists (length tail). now rewrite <- (slashes_only Htail).
  - intros d Hne Heq. specialize (Hlast d Hne). now rewrite Heq in Hlast.
Qed.

(** The address is set to ["https://api.test//"]. *)
Lemma load_settings_slashes_witness :
  exists st,
    @load_settings Scripted.runtime_75 Scripted.env_with_slashes = Ok st
    /\ api_url st = py "https://api.test".
Proof.
  eexists. split; [reflexivity|].
  destruct (proj1 (@load_settings_strips_trailing_slashes Scripted.runtime_75
                     Scripted.env_with_slashes _ eq_refl)) as [k _].
  reflexivity.
Defined.

(** X21: [load_settings] never reads a timeout: the settings it returns
    have a timeout of 20 seconds whatever the environment holds; the
    credential is passed on as it is, [None] when it is not set, without
    failure; and the wrap width is what [int] reads in
    [WRAP_NEWS_WIDTH]. *)
Theorem load_settings_timeout_is_fixed
  {RT : Runtime} (env : environ) (st : Settings) :
  load_settings env = Ok st ->
  timeout_sec st = 20%Z
  /\ gemini_api_key st = env (py "GEMINI_API_KEY")
  /\ py_int (PStr (getenv env (py "WRAP_NEWS_WIDTH") (py "75"))) = Ok (wrap_news_width st).
Proof.
  unfold load_settings. cbv zeta.
  destruct (py_int _) as [width|e]; [|discriminate]. cbn [rbind]. now intros [= <-].
Qed.

(** An environment without a credential and without a width. *)
Lemma load_settings_timeout_witness :
  exists st,
    @load_settings Scripted.runtime_75 Scripted.env_with_slashes = Ok st
    /\ timeout_sec st = 20%Z /\ gemini_api_key st = None /\ wrap_news_width st = 75%Z.
Proof.
  eexists. split; [reflexivity|].
  destruct (@load_settings_timeout_is_fixed Scripted.runtime_75
              Scripted.env_with_slashes _ eq_refl) as (Ht & Hk & _).
  split; [exact Ht|]. split; [exact Hk | reflexivity].
Defined.

(** ** Currency formatting *)

Section FormatFacts.

Lemma replace_one_char (a b : pychar) (s : pystr) :
  replace [a] [b] s = map (fun c => if (c =? a)%N then b else c) s.
Proof.
  unfold replace. induction s as [|c s IH]; [reflexivity|].
  cbn [replace_scan starts_with length Nat.sub app map].
  rewrite andb_true_r, N.eqb_sym. destruct (c =? a)%N; now rewrite IH.
Qed.

Lemma swap_through_placeholder (c : pychar) :
  c <> LETTER_X ->
  (fun x => if (x =? LETTER_X)%N then DOT else x)
    ((fun x => if (x =? DOT)%N then COMMA else x)
       ((fun x => if (x =? COMMA)%N then LETTER_X else x) c))
  = swap_separator c.
Proof.
  intros Hc. unfold swap_separator. cbv beta.
  destruct (N.eqb_spec c COMMA) as [-> | Hcomma]; [reflexivity|].
  destruct (N.eqb_spec c DOT) as [-> | Hdot]; [reflexivity|].
  now destruct (N.eqb_spec c LETTER_X).
Qed.

Lemma swap_separator_involutive (c : pychar) : swap_separator (swap_separator c) = c.
Proof.
  unfold swap_separator.
  destruct (N.eqb_spec c COMMA) as [-> | Hcomma]; [reflexivity|].
  destruct (N.eqb_spec c DOT) as [-> | Hdot]; [reflexivity|].
  destruct (N.eqb_spec c COMMA); [contradiction|].
  now destruct (N.eqb_spec c DOT).
Qed.

End FormatFacts.

(** X22: [format_brl] puts ["R$ "] before the formatted number and
    exchanges its commas and dots, every other character kept in place,
    provided the formatted number holds no ["X"] (the placeholder of the
    exchange); formatting twice would give the separators back. *)
Theorem format_brl_exchanges_separators
  (format_grouped : pyval -> pystr) (value : pyval) :
  ~ In LETTER_X (format_grouped value) ->
  format_brl format_grouped value
  = py "R$ " ++ map swap_separator (format_grouped value)
  /\ map swap_separator (map swap_separator (format_grouped value))
     = format_grouped value.
Proof.
  intros HX. split.
  - unfold format_brl. cbv zeta. f_equal.
    change (py ",") with [COMMA]. change (py ".") with [DOT].
    change (py "X") with [LETTER_X].
    rewrite !replace_one_char, !map_map. apply map_ext_in.
    intros c Hc. apply swap_through_placeholder. now intros ->.
  - rewrite map_map. rewrite <- (map_id (format_grouped value)) at 2.
    apply map_ext. apply swap_separator_involutive.
Qed.

(** The number 20000.0 is formatted ["20,000.00"]. *)
Lemma format_brl_witness :
  format_brl (fun _ => py "20,000.00") (PFloat (S754_finite false 20000 0))
  = py "R$ 20.000,00".
Proof.
  refine (proj1 (@format_brl_exchanges_separators (fun _ => py "20,000.00")
                   (PFloat (S754_finite false 20000 0)) _)).
  vm_compute. intuition discriminate.
Defined.

(** ** The order of the stages *)

(** X23: [main] writes the report before it updates any record, and
    renders the table before it generates any text: when the rows cannot
    be built or written, the run ends with that exception and no update
    has been attempted; when the table cannot be rendered, the run ends
    before the generation stage. *)
Theorem report_failure_precedes_any_update
  {RT : Runtime} {W : Type} {WD : World W} (settings : Settings) :
  (forall (s : state W) user_ids s1 u0 users s2 e,
      read_user_ids (csv_path settings)
        (logged (logged (logged s (Log INFO (py "API_URL=" ++ api_url settings)))
                   (Log INFO (py "CSV_PATH=" ++ csv_path settings)))
           (Log INFO (py "GEMINI_MODEL=" ++ gemini_model settings)))
      = (Ok user_ids, s1) ->
      fetch_users settings user_ids []
        (logged (logged s1 (Log INFO (py "IDs do CSV: " ++ str_of_ints user_ids)))
           Separator)
      = (Ok (u0 :: users), s2) ->
      print_users_table (u0 :: users) (wrap_news_width settings) = Raise e ->
      main settings s
      = (Raise e,
         logged s2 (Log INFO (py "Usuários carregados da API (resumo):" ++ [10%N]))))
  /\ (forall (s : state W) user_ids s1 u0 users s2 table users' s3 e s4,
        read_user_ids (csv_path settings)
          (logged (logged (logged s (Log INFO (py "API_URL=" ++ api_url settings)))
                     (Log INFO (py "CSV_PATH=" ++ csv_path settings)))
             (Log INFO (py "GEMINI_MODEL=" ++ gemini_model settings)))
        = (Ok user_ids, s1) ->
        fetch_users settings user_ids []
          (logged (logged s1 (Log INFO (py "IDs do CSV: " ++ str_of_ints user_ids)))
             Separator)
        = (Ok (u0 :: users), s2) ->
        print_users_table (u0 :: users) (wrap_news_width settings) = Ok table ->
        transform_add_news_gemini settings (u0 :: users)
          (logged (logged (logged s2
             (Log INFO (py "Usuários carregados da API (resumo):" ++ [10%N])))
             (Table table)) Separator)
        = (Ok users', s3) ->
        save_report_csv users' (report_path settings) (logged s3 Separator)
        = (Raise e, s4) ->
        main settings s = (Raise e, s4)).
Proof.
  split.
  - intros s user_ids s1 u0 users s2 e Hread Hfetch Htable. unfold main.
    unfold bind at 1. unfold info at 1, print.
    unfold bind at 1. unfold info at 1, print.
    unfold bind at 1. unfold info at 1, print.
    unfold bind at 1. rewrite Hread.
    unfold bind at 1. unfold info at 1, print.
    unfold bind at 1. unfold separator at 1, print.
    unfold bind at 1. rewrite Hfetch.
    unfold bind at 1. unfold info at 1, print.
    unfold bind at 1. unfold lift. now rewrite Htable.
  - intros s user_ids s1 u0 users s2 table users' s3 e s4
           Hread Hfetch Htable Htrans Hsave. unfold main.
    unfold bind at 1. unfold info at 1, print.
    unfold bind at 1. unfold info at 1, print.
    unfold bind at 1. unfold info at 1, print.
    unfold bind at 1. rewrite Hread.
    unfold bind at 1. unfold info at 1, print.
    unfold bind at 1. unfold separator at 1, print.
    unfold bind at 1. rewrite Hfetch.
    unfold bind at 1. unfold info at 1, print.
    unfold bind at 1. unfold lift. rewrite Htable.
    unfold bind at 1.
    unfold bind at 1. unfold separator at 1, print.
    unfold bind at 1. rewrite Htrans.
    unfold bind at 1. unfold separator at 1, print.
    unfold bind at 1. now rewrite Hsave.
Qed.

(** The disk is full: the run ends with [OSError] and no update was
    sent. *)
Lemma report_failure_witness :
  fst (@main Scripted.runtime _ (Scripted.world_without_disk Scripted.happy)
         Scripted.settings Scripted.start)
  = Raise Scripted.disk_full
  /\ Scripted.urls_put
       (world (snd (@main Scripted.runtime _ (Scripted.world_without_disk Scripted.happy)
                      Scripted.settings Scripted.start)))
     = [].
Proof.
  pose proof (proj2 (@report_failure_precedes_any_update Scripted.runtime _
                       (Scripted.world_without_disk Scripted.happy) Scripted.settings)
                Scripted.start) as H.
  split; [|now vm_compute].
  erewrite H; [reflexivity | | | | |]; vm_compute; reflexivity.
Defined.
